(* Verification of the drift-detection and policy-gate engine of
   clinical-driftops-platform.

   Embedded sources:
   - the policy gate [src/ops/policy_gate.py] as installed by the test
     fixture [conftest.py] (functions [_load_json], [_safe_float], [_psi],
     [_drift_summary], [_observed], [_check], [main]);
   - [monitors/drift_detector.py] ([_psi], [DriftSummary],
     [compare_dataframes]);
   - [src/eval/performance_metrics.py] ([_ks_stat], [_to_lists],
     [_accuracy_at_threshold], [_log_loss]);
   - the validator [src/ops/policy_gate.py] of [src/src] ([run_policy_gate],
     [_gate_result] and the final status of [main]).

   Modelling conventions.
   - A Python/NumPy double is [pyfloat]: a finite value (kept exactly as a
     rational), NaN, +inf or -inf.  Rounding is not modelled; overflow is,
     in [float()] of an int and in the arithmetic of [_log_loss].
   - [str.lower] is modelled on ASCII letters only.
   - A Python object read from YAML or JSON is [pyval]; a dict is an
     association list with distinct keys.
   - Exceptions are the [Raise] branch of the [res] monad; an exception that
     reaches the top of the process is exit status 1 (CPython's behaviour).
   - Library routines whose internals the claims do not depend on are
     section variables: [ln] (numpy.log on a positive double), [ks_2samp]
     (scipy.stats.ks_2samp(...).statistic, [None] when it raises),
     [float_of_str] and [int_of_str] (Python's float(str) and int(str),
     [None] when they raise ValueError).  Every theorem holds for all of
     them. *)

From Stdlib Require Import List Bool ZArith QArith Qminmax Qround Qabs String Ascii Lia Lqa.
Import ListNotations.
Set Warnings "-register-all".
Open Scope string_scope.
Open Scope list_scope.

(* ------------------------------------------------------------------ *)
(** * Doubles *)

Inductive pyfloat : Type :=
| PF (q : Q)
| PNaN
| PInf
| PNInf.

(** [math.isfinite] / [np.isfinite] *)
Definition pf_isfinite (x : pyfloat) : bool :=
  match x with PF _ => true | _ => false end.

Definition Qltb (a b : Q) : bool := negb (Qle_bool b a).

(** IEEE ordering: every comparison with NaN is false. *)
Definition pf_lt (x y : pyfloat) : bool :=
  match x, y with
  | PNaN, _ | _, PNaN => false
  | PF a, PF b => Qltb a b
  | PNInf, PNInf => false
  | PNInf, _ => true
  | PInf, _ => false
  | PF _, PInf => true
  | PF _, PNInf => false
  end.

Definition pf_eq (x y : pyfloat) : bool :=
  match x, y with
  | PF a, PF b => Qeq_bool a b
  | PInf, PInf | PNInf, PNInf => true
  | _, _ => false
  end.

Definition pf_le (x y : pyfloat) : bool := pf_lt x y || pf_eq x y.

Definition pf_neg (x : pyfloat) : pyfloat :=
  match x with PF a => PF (- a) | PNaN => PNaN | PInf => PNInf | PNInf => PInf end.

Definition pf_add (x y : pyfloat) : pyfloat :=
  match x, y with
  | PNaN, _ | _, PNaN => PNaN
  | PF a, PF b => PF (a + b)
  | PInf, PNInf | PNInf, PInf => PNaN
  | PInf, _ | _, PInf => PInf
  | PNInf, _ | _, PNInf => PNInf
  end.

(** Product of a finite double by a double (the only products [_psi] forms). *)
Definition pf_scale (a : Q) (y : pyfloat) : pyfloat :=
  match y with
  | PF b => PF (a * b)
  | PNaN => PNaN
  | PInf => if Qeq_bool a 0 then PNaN else if Qle_bool 0 a then PInf else PNInf
  | PNInf => if Qeq_bool a 0 then PNaN else if Qle_bool 0 a then PNInf else PInf
  end.

(** Overflow: a result whose magnitude rounds past the largest double (from
    2^1024 - 2^970 on, with round-half-to-even) becomes an infinity. *)
Definition DBL_OVF : Z := (2 ^ 1024 - 2 ^ 970)%Z.

Definition round_ovf (q : Q) : pyfloat :=
  if Qle_bool (inject_Z DBL_OVF) q then PInf
  else if Qle_bool q (- inject_Z DBL_OVF) then PNInf
  else PF q.

Definition pf_finish (x : pyfloat) : pyfloat :=
  match x with PF q => round_ovf q | _ => x end.

(** [x * y] on doubles, with overflow. *)
Definition pf_mul (x y : pyfloat) : pyfloat :=
  match x, y with
  | PF a, _ => pf_finish (pf_scale a y)
  | _, PF b => pf_finish (pf_scale b x)
  | PNaN, _ | _, PNaN => PNaN
  | PInf, PInf | PNInf, PNInf => PInf
  | _, _ => PNInf
  end.

(** [float(z)] of a Python int: [None] where Python raises OverflowError
    (the int rounds past the largest double). *)
Definition float_of_int (z : Z) : option pyfloat :=
  if Z.leb DBL_OVF (Z.abs z) then None else Some (PF (inject_Z z)).

(* ------------------------------------------------------------------ *)
(** * Python objects and exceptions *)

Inductive pyval : Type :=
| PyNone
| PyBool (b : bool)
| PyInt (z : Z)
| PyFloat (f : pyfloat)
| PyStr (s : string)
| PyList (xs : list pyval)
| PyDict (kvs : list (string * pyval)).

Inductive exn : Type :=
| TypeError
| AttributeError
| ValueError
| OverflowError
| YAMLError
| ParserError
| ScipyError.

Inductive res (A : Type) : Type :=
| Ok (a : A)
| Raise (e : exn).
Arguments Ok {A} a.
Arguments Raise {A} e.

Definition bind {A B} (m : res A) (k : A -> res B) : res B :=
  match m with Ok a => k a | Raise e => Raise e end.

Notation "x <- m ;; k" := (bind m (fun x => k))
  (at level 61, m at next level, right associativity).

Fixpoint assoc {A} (k : string) (m : list (string * A)) : option A :=
  match m with
  | [] => None
  | (k', v) :: m' => if String.eqb k k' then Some v else assoc k m'
  end.

(** The numeric view of [bool], [int] and [float] objects. *)
Definition py_num (v : pyval) : option pyfloat :=
  match v with
  | PyBool b => Some (PF (if b then 1 else 0))
  | PyInt z => Some (PF (inject_Z z))
  | PyFloat f => Some f
  | _ => None
  end.

Definition str_ltb (s t : string) : bool :=
  match String.compare s t with Lt => true | _ => false end.

(** [a < b]; ordering of objects of unrelated types raises TypeError.  The
    gate only ever orders numbers. *)
Definition py_lt (a b : pyval) : res bool :=
  match py_num a, py_num b, a, b with
  | Some x, Some y, _, _ => Ok (pf_lt x y)
  | _, _, PyStr s, PyStr t => Ok (str_ltb s t)
  | _, _, _, _ => Raise TypeError
  end.

Definition py_le (a b : pyval) : res bool :=
  match py_num a, py_num b, a, b with
  | Some x, Some y, _, _ => Ok (pf_le x y)
  | _, _, PyStr s, PyStr t => Ok (str_ltb s t || String.eqb s t)
  | _, _, _, _ => Raise TypeError
  end.

Definition py_ge (a b : pyval) : res bool := py_le b a.

(** [a == b]; never raises. *)
Fixpoint py_eq (a b : pyval) {struct a} : bool :=
  match a, b with
  | PyNone, PyNone => true
  | PyStr s, PyStr t => String.eqb s t
  | PyList xs, PyList ys =>
      (fix go (xs ys : list pyval) : bool :=
         match xs, ys with
         | [], [] => true
         | x :: xs', y :: ys' => py_eq x y && go xs' ys'
         | _, _ => false
         end) xs ys
  | PyDict m, PyDict n =>
      Nat.eqb (List.length m) (List.length n) &&
      (fix go (m : list (string * pyval)) : bool :=
         match m with
         | [] => true
         | (k, v) :: m' =>
             match assoc k n with Some w => py_eq v w | None => false end && go m'
         end) m
  | _, _ =>
      match py_num a, py_num b with
      | Some x, Some y => pf_eq x y
      | _, _ => false
      end
  end.

(** [bool(v)] *)
Definition truthy (v : pyval) : bool :=
  match v with
  | PyNone => false
  | PyBool b => b
  | PyInt z => negb (Z.eqb z 0)
  | PyFloat (PF q) => negb (Qeq_bool q 0)
  | PyFloat _ => true
  | PyStr s => negb (String.eqb s EmptyString)
  | PyList xs => negb (Nat.eqb (List.length xs) 0)
  | PyDict m => negb (Nat.eqb (List.length m) 0)
  end.

(** [d.get(k, default)]: only dicts have [get]. *)
Definition py_get (d : pyval) (k : string) (default : pyval) : res pyval :=
  match d with
  | PyDict m => match assoc k m with Some v => Ok v | None => Ok default end
  | _ => Raise AttributeError
  end.

Definition is_dict (v : pyval) : bool :=
  match v with PyDict _ => true | _ => false end.

(* ------------------------------------------------------------------ *)
(** * Strings *)

Definition ascii_lower (c : ascii) : ascii :=
  let n := nat_of_ascii c in
  if (65 <=? n)%nat && (n <=? 90)%nat then ascii_of_nat (n + 32) else c.

(** [str.lower] on ASCII text. *)
Fixpoint str_lower (s : string) : string :=
  match s with
  | EmptyString => EmptyString
  | String c s' => String (ascii_lower c) (str_lower s')
  end.

(** [sub in s] *)
Fixpoint contains (sub s : string) : bool :=
  String.prefix sub s ||
  match s with EmptyString => false | String _ s' => contains sub s' end.

(** [s.endswith(suf)] *)
Fixpoint ends_with (suf s : string) : bool :=
  String.eqb suf s ||
  match s with EmptyString => false | String _ s' => ends_with suf s' end.

Definition mem_str (x : string) (l : list string) : bool :=
  existsb (String.eqb x) l.

(* ------------------------------------------------------------------ *)
(** * NumPy routines used by [_psi], on finite samples *)

Fixpoint insertQ (x : Q) (l : list Q) : list Q :=
  match l with
  | [] => [x]
  | y :: l' => if Qle_bool x y then x :: l else y :: insertQ x l'
  end.

(** [np.sort] *)
Definition sortQ (l : list Q) : list Q := fold_right insertQ [] l.

(** [x[np.isfinite(x)]] *)
Fixpoint finite_part (xs : list pyfloat) : list Q :=
  match xs with
  | [] => []
  | PF q :: xs' => q :: finite_part xs'
  | _ :: xs' => finite_part xs'
  end.

(** [np.nanpercentile(x, p)] with the default 'linear' method, on a finite
    non-empty sample: interpolation between the order statistics around
    index [p/100 * (n-1)]. *)
Definition percentile (xs : list Q) (p : Q) : Q :=
  let s := sortQ xs in
  let n := List.length s in
  let idx := p / 100 * inject_Z (Z.of_nat n - 1) in
  let lo := Z.to_nat (Qfloor idx) in
  let hi := Nat.min (lo + 1) (n - 1) in
  let frac := idx - inject_Z (Qfloor idx) in
  let a := nth lo s 0 in
  let b := nth hi s 0 in
  a + (b - a) * frac.

(** [np.linspace(start, stop, num)] *)
Definition linspace (start stop : Q) (num : nat) : list Q :=
  let step := (stop - start) / inject_Z (Z.of_nat num - 1) in
  map (fun i => if (1 <? num)%nat && (i =? num - 1)%nat then stop
                else start + inject_Z (Z.of_nat i) * step)
      (seq 0 num).

Definition count_lt (v : Q) (xs : list Q) : nat :=
  List.length (filter (fun x => Qltb x v) xs).

Definition count_le (v : Q) (xs : list Q) : nat :=
  List.length (filter (fun x => Qle_bool x v) xs).

(** Cumulative counts of [np.histogram] with explicit edges:
    [searchsorted(x, e, 'left')] at every edge but the last, 'right' at the
    last one. *)
Fixpoint cum_counts (xs : list Q) (edges : list Q) : list nat :=
  match edges with
  | [] => []
  | [e] => [count_le e xs]
  | e :: es => count_lt e xs :: cum_counts xs es
  end.

(** [np.diff] *)
Fixpoint diffs (c : list nat) : list Z :=
  match c with
  | a :: ((b :: _) as c') => (Z.of_nat b - Z.of_nat a)%Z :: diffs c'
  | _ => []
  end.

(** [np.histogram(x, bins=edges)[0]] *)
Definition histogram (xs : list Q) (edges : list Q) : list Z :=
  diffs (cum_counts xs edges).

(** [np.clip(x, lo, hi)] *)
Definition clip (x lo hi : Q) : Q :=
  if Qltb x lo then lo else if Qltb hi x then hi else x.

(** [np.clip(h / max(h.sum(), 1), 1e-6, 1)] *)
Definition ratios (h : list Z) : list Q :=
  let total := Z.max (fold_right Z.add 0%Z h) 1 in
  map (fun c => clip (inject_Z c / inject_Z total) (1 # 1000000) 1) h.

(** [np.sum] *)
Definition pf_sum (xs : list pyfloat) : pyfloat := fold_left pf_add xs (PF 0).

Section DriftDetector.

(** [np.log] of a positive finite double. *)
Variable ln : Q -> pyfloat.

(** The statistic [np.sum((a_ratio - e_ratio) * np.log(a_ratio / e_ratio))]
    computed by [_psi] on two filtered, non-empty samples. *)
Definition psi_raw (expected actual : list Q) (bins : nat) : pyfloat :=
  let cuts := linspace (percentile expected 1) (percentile expected 99) (bins + 1) in
  let e_ratio := ratios (histogram expected cuts) in
  let a_ratio := ratios (histogram actual cuts) in
  pf_sum (map (fun '(a, e) => pf_scale (a - e) (ln (a / e))) (combine a_ratio e_ratio)).

(** [_psi] of [monitors/drift_detector.py] (the same text is the [_psi] of
    the gate installed by [conftest.py]). *)
Definition _psi (expected actual : list pyfloat) (bins : nat) : pyfloat :=
  let e := finite_part expected in
  let a := finite_part actual in
  match e, a with
  | [], _ | _, [] => PF 0
  | _, _ =>
      let psi := psi_raw e a bins in
      if pf_isfinite psi then psi else PF 0
  end.

End DriftDetector.

(* ------------------------------------------------------------------ *)
(** * Tabular data *)

(** A pandas column: numeric-typed (its values after
    [pd.to_numeric(errors="coerce")]) or of another dtype. *)
Inductive column : Type :=
| NumCol (xs : list pyfloat)
| OtherCol.

(** A DataFrame: its columns in order, [df[c]] is the first column named [c]. *)
Definition frame : Type := list (string * column).

(** [df.columns] *)
Definition columns (f : frame) : list string := map fst f.

(** [pd.api.types.is_numeric_dtype(df[c])] *)
Definition is_numeric_dtype (f : frame) (c : string) : bool :=
  match assoc c f with Some (NumCol _) => true | _ => false end.

(** [pd.to_numeric(df[c], errors="coerce").values] for a numeric column *)
Definition to_numeric_values (f : frame) (c : string) : list pyfloat :=
  match assoc c f with Some (NumCol xs) => xs | _ => [] end.

Definition opt_finite (x : pyfloat) : option Q :=
  match x with PF q => Some q | _ => None end.

(** The identifier/time naming heuristic [looks_like_id_or_time]. *)
Definition looks_like_id_or_time (c : string) : bool :=
  let cl := str_lower c in
  ends_with "_id" cl || contains "time" cl || contains "date" cl.

(** One row of [DriftSummary.as_dataframe]; [None] is the NaN that pandas
    shows as a missing value. *)
Record row : Type := {
  feature : string;
  psi : option Q;
  ks : option Q;
  drift_flag : bool
}.

(** [Series.max()] (NaN skipped; NaN when nothing is left) *)
Fixpoint max_skipna (xs : list (option Q)) : option Q :=
  match xs with
  | [] => None
  | None :: xs' => max_skipna xs'
  | Some q :: xs' =>
      match max_skipna xs' with None => Some q | Some m => Some (Qmax q m) end
  end.

(** [DriftSummary.max_psi] *)
Definition max_psi (rows : list row) : option Q :=
  match rows with [] => None | _ => max_skipna (map psi rows) end.

(** [DriftSummary.max_ks] *)
Definition max_ks (rows : list row) : option Q :=
  match rows with [] => None | _ => max_skipna (map ks rows) end.

(** The per-feature heuristic flag threshold of [compare_dataframes]. *)
Definition drift_flag_threshold : Q := 1 # 10.

Module Monitors.
Section CompareDataframes.

Variable ln : Q -> pyfloat.
Variable ks_2samp : list Q -> list Q -> option pyfloat.

(** The column loop of [compare_dataframes]: [cols]. *)
Definition compare_cols (baseline current : frame) (ignore_cols : list string)
  : list string :=
  let ign := map str_lower ignore_cols in
  filter (fun c =>
            mem_str c (columns current)
            && negb (looks_like_id_or_time c || mem_str (str_lower c) ign)
            && is_numeric_dtype baseline c && is_numeric_dtype current c)
         (columns baseline).

(** The filtered samples of a column, and its [psi] and [ks] as computed
    (before NaN is stored for a non-finite value); [None] when a filtered
    sample is empty and the column is skipped. *)
Definition feature_stats (baseline current : frame) (c : string)
  : option (pyfloat * pyfloat) :=
  let b := finite_part (to_numeric_values baseline c) in
  let a := finite_part (to_numeric_values current c) in
  match b, a with
  | [], _ | _, [] => None
  | _, _ =>
      let psi := _psi ln (map PF b) (map PF a) 10 in
      let ks := match ks_2samp b a with Some k => k | None => PNaN end in
      Some (psi, ks)
  end.

Definition feature_row (baseline current : frame) (c : string) : option row :=
  match feature_stats baseline current c with
  | None => None
  | Some (p, k) =>
      let flag := pf_le (PF drift_flag_threshold) p
                  || pf_le (PF drift_flag_threshold) k in
      Some {| feature := c; psi := opt_finite p; ks := opt_finite k;
              drift_flag := flag |}
  end.

(** [compare_dataframes(baseline, current, ignore_cols, id_cols=...)]: the
    rows of the returned [DriftSummary]. *)
Definition compare_dataframes (baseline current : frame)
  (ignore_cols : option (list string)) (id_cols : option (list string))
  : list row :=
  let ignore_cols :=
    match ignore_cols, id_cols with
    | None, Some ids => Some ids
    | _, _ => ignore_cols
    end in
  let ign := match ignore_cols with Some l => l | None => [] end in
  flat_map (fun c => match feature_row baseline current c with
                     | Some r => [r] | None => [] end)
           (compare_cols baseline current ign).

End CompareDataframes.
End Monitors.

(* ------------------------------------------------------------------ *)
(** * [_ks_stat] of [src/eval/performance_metrics.py] *)

Module PerformanceMetrics.

(** One step of [sorted(..., key=lambda x: x[0])]: a stable insertion that
    compares keys with [<] only.  On NaN-free keys it agrees with Python's
    sort; the results proved below hold for every order of the pairs. *)
Fixpoint insert_by_score (p : pyfloat * Z) (l : list (pyfloat * Z))
  : list (pyfloat * Z) :=
  match l with
  | [] => [p]
  | q :: l' => if pf_lt (fst p) (fst q) then p :: l else q :: insert_by_score p l'
  end.

Definition sort_by_score (l : list (pyfloat * Z)) : list (pyfloat * Z) :=
  fold_left (fun acc p => insert_by_score p acc) l [].

Definition is_pos (p : pyfloat * Z) : bool := Z.eqb (snd p) 1.

(** The [for _, y in pairs] loop: [tp], [fp] and [maxdiff] threaded. *)
Fixpoint ks_sweep (n1 n0 tp fp : Z) (maxdiff : Q) (pairs : list (pyfloat * Z))
  : Q :=
  match pairs with
  | [] => maxdiff
  | (_, y) :: rest =>
      let tp' := if Z.eqb y 1 then (tp + 1)%Z else tp in
      let fp' := if Z.eqb y 1 then fp else (fp + 1)%Z in
      let tpr := inject_Z tp' / inject_Z n1 in
      let fpr := inject_Z fp' / inject_Z n0 in
      let d := Qabs (tpr - fpr) in
      ks_sweep n1 n0 tp' fp' (if Qltb maxdiff d then d else maxdiff) rest
  end.

Definition _ks_stat (y_true : list Z) (y_score : list pyfloat) : option Q :=
  let pairs := sort_by_score (combine y_score y_true) in
  let n := Z.of_nat (List.length pairs) in
  if Z.eqb n 0 then None
  else
    let n1 := Z.of_nat (List.length (filter is_pos pairs)) in
    let n0 := (n - n1)%Z in
    if Z.eqb n1 0 || Z.eqb n0 0 then None
    else Some (ks_sweep n1 n0 0 0 0 pairs).

(** The two samples [_ks_stat] compares: the scores of label-1 rows and the
    scores of the other rows. *)
Definition pos_scores (y_true : list Z) (y_score : list pyfloat) : list pyfloat :=
  map fst (filter is_pos (combine y_score y_true)).

Definition neg_scores (y_true : list Z) (y_score : list pyfloat) : list pyfloat :=
  map fst (filter (fun p => negb (is_pos p)) (combine y_score y_true)).

End PerformanceMetrics.

(* ------------------------------------------------------------------ *)
(** * The policy gate ([src/ops/policy_gate.py] installed by [conftest.py]) *)

Module Gate.

(** A JSON artifact under [reports/]: missing, unreadable or not JSON, or
    the object [json.loads] returns. *)
Inductive artifact : Type :=
| Absent
| Unparseable
| Parsed (v : pyval).

(** A CSV file under [data/]: missing, rejected by [pd.read_csv], or read. *)
Inductive data_file : Type :=
| DataAbsent
| DataUnreadable
| DataRead (f : frame).

(** [policy.yaml]: missing, rejected by [yaml.safe_load], or loaded. *)
Inductive policy_file : Type :=
| PolicyAbsent
| PolicyMalformed
| PolicyParsed (v : pyval).

(** Everything [main] reads. *)
Record world : Type := {
  policy_yaml : policy_file;
  performance_metrics_json : artifact;
  shap_top_features_json : artifact;
  fairness_summary_json : artifact;
  data_prepared_baseline_csv : data_file;
  data_prepared_current_csv : data_file;
  now_utc : string
}.

(** The record [_observed] returns. *)
Record observed : Type := {
  obs_max_psi : option Q;
  obs_max_ks : option Q;
  obs_auroc : option pyfloat;
  obs_auprc : option pyfloat;
  obs_log_loss : option pyfloat;
  obs_parity_gap : option pyfloat;
  obs_shap_artifact_present : bool;
  obs_top_features_detected : option Z
}.

Inductive outcome : Type := PASS | FAIL | SKIP.

Definition outcome_eqb (a b : outcome) : bool :=
  match a, b with
  | PASS, PASS | FAIL, FAIL | SKIP, SKIP => true
  | _, _ => false
  end.

(** A check dict: [{"name", "value", "op", "threshold", "result"}]. *)
Record check : Type := {
  name : string;
  value : pyval;
  op : string;
  threshold : pyval;
  result : outcome
}.

(** The artifact [reports/policy_gate_result.json]. *)
Record gate_result : Type := {
  status : outcome;
  timestamp_utc : string;
  policy : pyval;
  observed_metrics : observed;
  checks : list check;
  notes : string
}.

Definition empty_dict : pyval := PyDict [].

Definition of_optQ (x : option Q) : pyval :=
  match x with Some q => PyFloat (PF q) | None => PyNone end.

Definition of_optf (x : option pyfloat) : pyval :=
  match x with Some f => PyFloat f | None => PyNone end.

Definition of_optZ (x : option Z) : pyval :=
  match x with Some z => PyInt z | None => PyNone end.

(** [float(np.nanmax(vals)) if vals else None] on finite values *)
Definition list_max (vals : list Q) : option Q := max_skipna (map Some vals).

(** Columns dropped by [_drift_summary] whatever the policy says. *)
Definition auto_ignored : list string := ["label"; "y_true"; "y_pred"; "y_score"].

Section Gate.

Variable ln : Q -> pyfloat.
Variable ks_2samp : list Q -> list Q -> option pyfloat.
Variable float_of_str : string -> option pyfloat.
Variable int_of_str : string -> option Z.

(** [_load_json(p, d)] *)
Definition _load_json (a : artifact) (d : pyval) : pyval :=
  match a with Parsed v => v | _ => d end.

(** [_safe_float(x)] (default [None]); an int too large for a double makes
    [float()] raise, which gives the default. *)
Definition _safe_float (x : pyval) : option pyfloat :=
  match x with
  | PyNone => None
  | PyBool b => Some (PF (if b then 1 else 0))
  | PyInt z => float_of_int z
  | PyFloat f => Some f
  | PyStr s => float_of_str s
  | PyList _ | PyDict _ => None
  end.

(** [int(v)] *)
Definition py_int (v : pyval) : res Z :=
  match v with
  | PyBool b => Ok (if b then 1%Z else 0%Z)
  | PyInt z => Ok z
  | PyFloat (PF q) => Ok (Z.quot (Qnum q) (Zpos (Qden q)))
  | PyFloat PNaN => Raise ValueError
  | PyFloat _ => Raise OverflowError
  | PyStr s => match int_of_str s with Some z => Ok z | None => Raise ValueError end
  | _ => Raise TypeError
  end.

(** [k in container] *)
Definition py_in (k : string) (container : pyval) : res bool :=
  match container with
  | PyDict m => Ok (match assoc k m with Some _ => true | None => false end)
  | PyList xs => Ok (existsb (py_eq (PyStr k)) xs)
  | PyStr s => Ok (contains k s)
  | _ => Raise TypeError
  end.

(** [set(map(str.lower, v))] *)
Definition lower_all (v : pyval) : res (list string) :=
  match v with
  | PyList xs =>
      fold_right (fun x acc =>
                    l <- acc ;;
                    match x with
                    | PyStr s => Ok (str_lower s :: l)
                    | _ => Raise TypeError
                    end) (Ok []) xs
  | PyStr s => Ok (map (fun c => str_lower (String c EmptyString)) (list_ascii_of_string s))
  | PyDict m => Ok (map (fun kv => str_lower (fst kv)) m)
  | _ => Raise TypeError
  end.

(** The column loop of [_drift_summary]: [cols]. *)
Definition gate_cols (base curr : frame) (ign : list string) : list string :=
  filter (fun c =>
            mem_str c (columns curr)
            && negb (looks_like_id_or_time c || mem_str (str_lower c) ign
                     || mem_str (str_lower c) auto_ignored)
            && is_numeric_dtype base c && is_numeric_dtype curr c)
         (columns base).

(** The [for c in cols] loop of [_drift_summary]: [psi_vals], [ks_vals]. *)
Fixpoint drift_loop (base curr : frame) (cols : list string)
  : res (list Q * list Q) :=
  match cols with
  | [] => Ok ([], [])
  | c :: cs =>
      let xb := finite_part (to_numeric_values base c) in
      let xa := finite_part (to_numeric_values curr c) in
      match xb, xa with
      | [], _ | _, [] => drift_loop base curr cs
      | _, _ =>
          let v := _psi ln (map PF xb) (map PF xa) 10 in
          match ks_2samp xb xa with
          | None => Raise ScipyError
          | Some k =>
              rest <- drift_loop base curr cs ;;
              Ok (match v with PF q => [q] | _ => [] end ++ fst rest,
                  match k with PF q => [q] | _ => [] end ++ snd rest)
          end
      end
  end.

(** [_drift_summary(policy)]: [(max_psi, max_ks)]. *)
Definition _drift_summary (w : world) (policy : pyval)
  : res (option Q * option Q) :=
  match data_prepared_baseline_csv w, data_prepared_current_csv w with
  | DataAbsent, _ | _, DataAbsent => Ok (None, None)
  | DataUnreadable, _ => Raise ParserError
  | DataRead _, DataUnreadable => Raise ParserError
  | DataRead base, DataRead curr =>
      d <- py_get policy "drift" empty_dict ;;
      ic <- py_get d "ignore_cols" (PyList []) ;;
      ign <- lower_all ic ;;
      match gate_cols base curr ign with
      | [] => Ok (None, None)
      | cols =>
          vals <- drift_loop base curr cols ;;
          Ok (list_max (fst vals), list_max (snd vals))
      end
  end.

(** [bool(shap and ("n_top_features" in shap or "features" in shap))] *)
Definition shap_present (shap : pyval) : res bool :=
  if truthy shap then
    a <- py_in "n_top_features" shap ;;
    if a then Ok true else py_in "features" shap
  else Ok false.

(** [int(shap.get("n_top_features")) if isinstance(..., (int, float)) else None] *)
Definition top_features (shap : pyval) : res (option Z) :=
  v <- py_get shap "n_top_features" PyNone ;;
  match v with
  | PyBool _ | PyInt _ | PyFloat _ => z <- py_int v ;; Ok (Some z)
  | _ => Ok None
  end.

(** [_observed(policy)] *)
Definition _observed (w : world) (policy : pyval) : res observed :=
  let perf := _load_json (performance_metrics_json w) empty_dict in
  let shap := _load_json (shap_top_features_json w) empty_dict in
  let fair := _load_json (fairness_summary_json w) empty_dict in
  drift <- _drift_summary w policy ;;
  au <- py_get perf "auroc" PyNone ;;
  ap <- py_get perf "auprc" PyNone ;;
  ll <- py_get perf "log_loss" PyNone ;;
  pg <- py_get fair "parity_gap" PyNone ;;
  sp <- shap_present shap ;;
  tf <- top_features shap ;;
  Ok {| obs_max_psi := fst drift;
        obs_max_ks := snd drift;
        obs_auroc := _safe_float au;
        obs_auprc := _safe_float ap;
        obs_log_loss := _safe_float ll;
        obs_parity_gap := _safe_float pg;
        obs_shap_artifact_present := sp;
        obs_top_features_detected := tf |}.

(** The comparison [_check] applies for [op]. *)
Definition apply_op (op : string) (v thr : pyval) : res bool :=
  if String.eqb op "<" then py_lt v thr
  else if String.eqb op "<=" then py_le v thr
  else if String.eqb op ">=" then py_ge v thr
  else if String.eqb op "==" then Ok (py_eq v thr)
  else Ok false.

(** [_check(name, value, op, thr)] *)
Definition _check (nm : string) (v : pyval) (o : string) (thr : pyval) : res check :=
  match v with
  | PyNone => Ok {| name := nm; value := v; op := o; threshold := thr; result := SKIP |}
  | _ =>
      ok <- apply_op o v thr ;;
      Ok {| name := nm; value := v; op := o; threshold := thr;
            result := if ok then PASS else FAIL |}
  end.

(** [status = "PASS"; for c in checks: if c["result"] == "FAIL": status = "FAIL"; break] *)
Fixpoint status_loop (cs : list check) : outcome :=
  match cs with
  | [] => PASS
  | c :: cs' => match result c with FAIL => FAIL | _ => status_loop cs' end
  end.

Definition load_policy (p : policy_file) : res pyval :=
  match p with
  | PolicyAbsent => Ok empty_dict
  | PolicyMalformed => Raise YAMLError
  | PolicyParsed v => Ok v
  end.

(** [main()]: the return code and the artifact written. *)
Definition main (w : world) : res (Z * gate_result) :=
  policy <- load_policy (policy_yaml w) ;;
  obs <- _observed w policy ;;
  d0 <- py_get policy "drift" empty_dict ;;
  let drift := if is_dict d0 then d0 else empty_dict in
  t1 <- py_get drift "psi_fail" (PyFloat (PF (1 # 5))) ;;
  c1 <- _check "drift.psi" (of_optQ (obs_max_psi obs)) "<" t1 ;;
  t2 <- py_get drift "ks_fail" (PyFloat (PF (1 # 5))) ;;
  c2 <- _check "drift.ks" (of_optQ (obs_max_ks obs)) "<" t2 ;;
  perf <- py_get policy "performance" empty_dict ;;
  t3 <- py_get perf "min_auroc" (PyFloat (PF (3 # 4))) ;;
  c3 <- _check "performance.auroc" (of_optf (obs_auroc obs)) ">=" t3 ;;
  t4 <- py_get perf "min_auprc" (PyFloat (PF (1 # 5))) ;;
  c4 <- _check "performance.auprc" (of_optf (obs_auprc obs)) ">=" t4 ;;
  fair <- py_get policy "fairness" empty_dict ;;
  t5 <- py_get fair "parity_gap_fail" (PyFloat (PF (1 # 20))) ;;
  c5 <- _check "fairness.parity_gap" (of_optf (obs_parity_gap obs)) "<=" t5 ;;
  expl <- py_get policy "explainability" empty_dict ;;
  t6 <- py_get expl "require_shap_artifact" (PyBool true) ;;
  c6 <- _check "explainability.shap_artifact_present"
          (PyBool (obs_shap_artifact_present obs)) "==" (PyBool (truthy t6)) ;;
  t7 <- py_get expl "top_features_min" (PyInt 2) ;;
  n7 <- py_int t7 ;;
  c7 <- _check "explainability.top_features_min"
          (of_optZ (obs_top_features_detected obs)) ">=" (PyInt n7) ;;
  let cs := [c1; c2; c3; c4; c5; c6; c7] in
  let st := status_loop cs in
  let out := {| status := st;
                timestamp_utc := now_utc w;
                policy := policy;
                observed_metrics := obs;
                checks := cs;
                notes := if outcome_eqb st PASS
                         then "Gate passed. All observed values within policy limits."
                         else "Gate failed. One or more checks exceeded policy limits." |} in
  Ok (if outcome_eqb st PASS then 0%Z else 1%Z, out).

End Gate.

(** The exit status of [python -m src.ops.policy_gate]
    ([raise SystemExit(main())]); an uncaught exception exits with 1. *)
Definition process_exit (r : res (Z * gate_result)) : Z :=
  match r with Ok (code, _) => code | Raise _ => 1%Z end.

End Gate.

(* ------------------------------------------------------------------ *)
(** * More of [src/eval/performance_metrics.py] *)

Module Metrics.
Section Metrics.

Variable float_of_str : string -> option pyfloat.
Variable int_of_str : string -> option Z.

(** [float(v)] *)
Definition py_float (v : pyval) : res pyfloat :=
  match v with
  | PyBool b => Ok (PF (if b then 1 else 0))
  | PyInt z => match float_of_int z with Some f => Ok f | None => Raise OverflowError end
  | PyFloat f => Ok f
  | PyStr s => match float_of_str s with Some f => Ok f | None => Raise ValueError end
  | _ => Raise TypeError
  end.

(** [_to_lists(y_true, y_score)]: [yt.append(int(a))] runs before
    [ys.append(float(b))], and an exception of either skips the rest of the
    iteration only. *)
Fixpoint _to_lists (y_true y_score : list pyval) : list Z * list pyfloat :=
  match y_true, y_score with
  | a :: y_true', b :: y_score' =>
      let '(yt, ys) := _to_lists y_true' y_score' in
      match Gate.py_int int_of_str a with
      | Raise _ => (yt, ys)
      | Ok i =>
          match py_float b with
          | Ok f => (i :: yt, f :: ys)
          | Raise _ => (i :: yt, ys)
          end
      end
  | _, _ => ([], [])
  end.

End Metrics.

(** [_accuracy_at_threshold(y_true, y_score, thr)] *)
Definition _accuracy_at_threshold (y_true : list Z) (y_score : list pyfloat) (thr : pyfloat)
  : option Q :=
  let n := List.length y_true in
  if Nat.eqb n 0 then None
  else
    let correct :=
      List.length (filter (fun '(y, s) => Z.eqb (if pf_le thr s then 1 else 0)%Z y)
                          (combine y_true y_score)) in
    Some (inject_Z (Z.of_nat correct) / inject_Z (Z.of_nat n)).

(** [EPS = 1e-15] *)
Definition EPS : Q := 1 # 1000000000000000.

(** Python's [min(a, b)]: [b] when [b < a], else [a]. *)
Definition py_min (a b : pyfloat) : pyfloat := if pf_lt b a then b else a.

(** Python's [max(a, b)]: [b] when [b > a], else [a]. *)
Definition py_max (a b : pyfloat) : pyfloat := if pf_lt a b then b else a.

(** [p = max(EPS, min(1 - EPS, p))] *)
Definition clamp_prob (p : pyfloat) : pyfloat := py_max (PF EPS) (py_min (PF (1 - EPS)) p).

(** A double divided by a positive int. *)
Definition pf_div_int (x : pyfloat) (n : Z) : pyfloat :=
  match x with PF a => PF (a / inject_Z n) | _ => x end.

Section LogLoss.

(** [math.log], which may raise (on 0 and on negative numbers). *)
Variable log : pyfloat -> res pyfloat.

(** [y * x] for an int [y] and a double [x]: [y] is converted with
    [float()] first. *)
Definition int_mul (y : Z) (x : pyfloat) : res pyfloat :=
  match float_of_int y with Some f => Ok (pf_mul f x) | None => Raise OverflowError end.

(** One iteration: [loss += -(y * math.log(p) + (1 - y) * math.log(1 - p))],
    evaluated left to right; the sums and products overflow to infinities. *)
Definition log_loss_step (loss : pyfloat) (y : Z) (p : pyfloat) : res pyfloat :=
  let p := clamp_prob p in
  a <- log p ;;
  m1 <- int_mul y a ;;
  b <- log (pf_add (PF 1) (pf_neg p)) ;;
  m2 <- int_mul (1 - y) b ;;
  Ok (pf_finish (pf_add loss (pf_neg (pf_finish (pf_add m1 m2))))).

Fixpoint log_loss_loop (loss : pyfloat) (pairs : list (Z * pyfloat)) : res pyfloat :=
  match pairs with
  | [] => Ok loss
  | (y, p) :: rest => l <- log_loss_step loss y p ;; log_loss_loop l rest
  end.

(** [_log_loss(y_true, y_score)] *)
Definition _log_loss (y_true : list Z) (y_score : list pyfloat) : res (option pyfloat) :=
  let n := List.length y_true in
  if Nat.eqb n 0 then Ok None
  else
    loss <- log_loss_loop (PF 0) (combine y_true y_score) ;;
    Ok (Some (pf_div_int loss (Z.of_nat n))).

End LogLoss.

End Metrics.

(* ------------------------------------------------------------------ *)
(** * The validator [src/ops/policy_gate.py] of the repository
      (the text of [src/api/validate_cli.py]) *)

Module Validator.

Import Gate.

Definition outcome_str (o : outcome) : string :=
  match o with PASS => "PASS" | FAIL => "FAIL" | SKIP => "SKIP" end.

(** The JSON objects the gate writes, as [json.loads] reads them back. *)
Definition observed_json (o : observed) : pyval :=
  PyDict [("max_psi", of_optQ (obs_max_psi o));
          ("max_ks", of_optQ (obs_max_ks o));
          ("auroc", of_optf (obs_auroc o));
          ("auprc", of_optf (obs_auprc o));
          ("log_loss", of_optf (obs_log_loss o));
          ("parity_gap", of_optf (obs_parity_gap o));
          ("shap_artifact_present", PyBool (obs_shap_artifact_present o));
          ("top_features_detected", of_optZ (obs_top_features_detected o))].

Definition check_json (c : check) : pyval :=
  PyDict [("name", PyStr (name c)); ("value", value c); ("op", PyStr (op c));
          ("threshold", threshold c); ("result", PyStr (outcome_str (result c)))].

Definition gate_result_json (r : gate_result) : pyval :=
  PyDict [("status", PyStr (outcome_str (status r)));
          ("timestamp_utc", PyStr (timestamp_utc r));
          ("policy", policy r);
          ("observed", observed_json (observed_metrics r));
          ("checks", PyList (map check_json (checks r)));
          ("notes", PyStr (notes r))].

(** [reports/policy_gate_result.json] after [run_policy_gate()]: what the
    gate's [main] wrote, or, when it raised, the fail-closed object with the
    exception's text [msg]. *)
Definition run_policy_gate (gate_run : res (Z * gate_result)) (msg : string) : artifact :=
  match gate_run with
  | Ok (_, r) => Parsed (gate_result_json r)
  | Raise _ =>
      Parsed (PyDict [("status", PyStr "fail"); ("policy", PyStr "default");
                      ("reasons", PyList [PyStr ("Gate error: " ++ msg)])])
  end.

(** [x or y] *)
Definition py_or (x y : pyval) : pyval := if truthy x then x else y.

(** The [try] block of [_gate_result()]; [Raise] is an exception its
    [except Exception] catches. *)
Definition gate_result_try (raw : pyval) : res pyval :=
  s <- py_get raw "status" PyNone ;;
  g <- py_get raw "gate_status" PyNone ;;
  let st := py_or (py_or s g) (PyStr "fail") in
  p <- py_get raw "policy" (PyStr "default") ;;
  rs <- py_get raw "reasons" (PyList []) ;;
  Ok (PyDict [("status", st); ("policy", p); ("reasons", rs)]).

Definition _gate_result (a : artifact) : pyval :=
  match a with
  | Absent =>
      PyDict [("status", PyStr "fail"); ("policy", PyStr "default");
              ("reasons", PyList [PyStr "Gate unavailable or error; failing closed."])]
  | Unparseable =>
      PyDict [("status", PyStr "fail"); ("policy", PyStr "default");
              ("reasons", PyList [PyStr "Gate parse error; failing closed."])]
  | Parsed raw =>
      match gate_result_try raw with
      | Ok g => g
      | Raise _ =>
          PyDict [("status", PyStr "fail"); ("policy", PyStr "default");
                  ("reasons", PyList [PyStr "Gate parse error; failing closed."])]
      end
  end.

(** [str(v).lower() == "pass"]: [str] of [None], a bool, a number, a list or
    a dict never lower-cases to "pass", so only a string can. *)
Definition lower_is_pass (v : pyval) : bool :=
  match v with PyStr s => String.eqb (str_lower s) "pass" | _ => false end.

(** [status = "PASS" if str(gate.get("status", "")).lower() == "pass" else "FAIL"] *)
Definition final_status (gate : pyval) : outcome :=
  match gate with
  | PyDict m =>
      if lower_is_pass (match assoc "status" m with Some v => v | None => PyStr "" end)
      then PASS else FAIL
  | _ => FAIL
  end.

(** The validator's exit code: [0 if status == "PASS" else 1]. *)
Definition validator_exit (a : artifact) : Z :=
  if outcome_eqb (final_status (_gate_result a)) PASS then 0%Z else 1%Z.

End Validator.

(* ================================================================== *)
(** * Properties *)

Import Gate.

(** The threshold the spec's policy table names: the value of [key] in the
    mapping [grp] of the policy, or [default] when there is none. *)
Definition policy_threshold (policy : pyval) (grp key : string) (default : pyval)
  : pyval :=
  match policy with
  | PyDict m =>
      match assoc grp m with
      | Some (PyDict g) => match assoc key g with Some v => v | None => default end
      | _ => default
      end
  | _ => default
  end.

(** The checks of a run, [[]] when it raised. *)
Definition run_checks (r : res (Z * gate_result)) : list check :=
  match r with Ok (_, g) => checks g | Raise _ => [] end.

(** The default thresholds of the gate. *)
Definition dflt_psi : pyval := PyFloat (PF (1 # 5)).
Definition dflt_ks : pyval := PyFloat (PF (1 # 5)).
Definition dflt_auroc : pyval := PyFloat (PF (3 # 4)).
Definition dflt_auprc : pyval := PyFloat (PF (1 # 5)).
Definition dflt_parity : pyval := PyFloat (PF (1 # 20)).

(** The observed record when no upstream artifact is there. *)
Definition obs_all_null : observed := {|
  obs_max_psi := None; obs_max_ks := None; obs_auroc := None; obs_auprc := None;
  obs_log_loss := None; obs_parity_gap := None;
  obs_shap_artifact_present := false; obs_top_features_detected := None |}.

Definition missing (a : artifact) : Prop := a = Absent \/ a = Unparseable.

(** The qualification rule for a column [c] of the baseline, as the
    monitor's documentation states it: (a) present in both datasets, (b) not
    in the case-insensitive ignore set, (c) its lower-cased name neither ends
    with "_id" nor contains "time" or "date", (d) numeric-typed in both. *)
Definition qualifies (baseline current : frame) (ignore_cols : list string)
  (c : string) : Prop :=
  In c (columns baseline) /\ In c (columns current) /\
  ~ In (str_lower c) (map str_lower ignore_cols) /\
  ends_with "_id" (str_lower c) = false /\
  contains "time" (str_lower c) = false /\
  contains "date" (str_lower c) = false /\
  is_numeric_dtype baseline c = true /\ is_numeric_dtype current c = true.

(** A column whose numeric values keep at least one finite value. *)
Definition has_finite_sample (f : frame) (c : string) : bool :=
  match finite_part (to_numeric_values f c) with [] => false | _ => true end.

(** The sign of a logarithm: finite on positive arguments, non-negative from
    1 up and non-positive up to 1. *)
Definition log_sign (ln : Q -> pyfloat) : Prop :=
  forall x, 0 < x ->
    exists l, ln x = PF l /\ (1 <= x -> 0 <= l) /\ (x <= 1 -> l <= 0).

(* ------------------------------------------------------------------ *)
(** * Concrete inputs *)

(** Stand-ins for the library routines, to run the model on examples:
    [np.log] by its first-order expansion at 1, a [ks_2samp] whose statistic
    is 0.0, and string conversions that always raise. *)
Definition ln_approx (x : Q) : pyfloat := PF (x - 1).

Definition ks_zero (b a : list Q) : option pyfloat := Some (PF 0).

Definition no_float (s : string) : option pyfloat := None.

Definition no_int (s : string) : option Z := None.

(** A run of the gate with these stand-ins. *)
Definition run (w : world) : res (Z * gate_result) :=
  Gate.main ln_approx ks_zero no_float no_int w.

Definition world_of (pol : policy_file) (perf shap fair : artifact) : world := {|
  policy_yaml := pol;
  performance_metrics_json := perf;
  shap_top_features_json := shap;
  fairness_summary_json := fair;
  data_prepared_baseline_csv := DataAbsent;
  data_prepared_current_csv := DataAbsent;
  now_utc := "2025-01-01T00:00:00+00:00" |}.

(** No report, no data and no policy file. *)
Definition w_empty : world := world_of PolicyAbsent Absent Absent Absent.

(** A policy file that [yaml.safe_load] rejects. *)
Definition w_bad_policy : world := world_of PolicyMalformed Absent Absent Absent.

(** A policy asking for at least 2.5 top features, and a SHAP summary
    with 2. *)
Definition w_fractional_min : world :=
  world_of
    (PolicyParsed (PyDict [("explainability",
                            PyDict [("top_features_min", PyFloat (PF (5 # 2)))])]))
    Absent
    (Parsed (PyDict [("n_top_features", PyInt 2);
                     ("features", PyList [PyStr "age"; PyStr "hr"])]))
    Absent.

(** Metrics with AUROC 0.5, a SHAP summary, no fairness summary. *)
Definition w_low_auroc : world :=
  world_of PolicyAbsent
    (Parsed (PyDict [("auroc", PyFloat (PF (1 # 2))); ("auprc", PyFloat (PF (9 # 10)))]))
    (Parsed (PyDict [("n_top_features", PyInt 3);
                     ("features", PyList [PyStr "age"; PyStr "hr"; PyStr "lactate"])]))
    Absent.

(** Two small datasets: an identifier, a timestamp, an ignored label, a
    text column and two numeric features listed in different orders. *)
Definition baseline_ex : frame := [
  ("subject_id", NumCol [PF 1; PF 2; PF 3]);
  ("admittime", OtherCol);
  ("Age", NumCol [PF 40; PF 55; PNaN; PF 70]);
  ("Label", NumCol [PF 0; PF 1; PF 0]);
  ("note", OtherCol);
  ("hr", NumCol [PF 70; PF 75; PF 80; PF 85])].

Definition current_ex : frame := [
  ("subject_id", NumCol [PF 4; PF 5]);
  ("hr", NumCol [PF 90; PF 95; PF 100; PInf]);
  ("Age", NumCol [PF 42; PF 57; PF 71]);
  ("Label", NumCol [PF 1; PF 1]);
  ("note", NumCol [PF 0])].

(** A run whose prepared data files are both read. *)
Definition w_data : world := {|
  policy_yaml := PolicyAbsent;
  performance_metrics_json := Absent;
  shap_top_features_json := Absent;
  fairness_summary_json := Absent;
  data_prepared_baseline_csv := DataRead baseline_ex;
  data_prepared_current_csv := DataRead current_ex;
  now_utc := "2025-01-01T00:00:00+00:00" |}.

(** The group [grp] of a policy mapping is absent or is itself a mapping. *)
Definition group_ok (pol : pyval) (grp : string) : bool :=
  match pol with
  | PyDict m => match assoc grp m with None => true | Some g => is_dict g end
  | _ => false
  end.

(** Whether a computation returned rather than raised. *)
Definition res_ok {A : Type} (r : res A) : bool :=
  match r with Ok _ => true | Raise _ => false end.

(** A stand-in for [math.log] with its sign: [x - 1] on finite doubles; it
    raises on the others. *)
Definition log_approx (x : pyfloat) : res pyfloat :=
  match x with PF q => Ok (PF (q - 1)) | _ => Raise ValueError end.

(** A policy that ignores the column [hr] for drift. *)
Definition policy_ignore_hr : pyval :=
  PyDict [("drift", PyDict [("ignore_cols", PyList [PyStr "HR"])])].

Definition ignore_ex : list string := ["label"].

Definition rows_ex : list row :=
  Monitors.compare_dataframes ln_approx ks_zero baseline_ex current_ex
    (Some ignore_ex) None.

Ltac res_inv H :=
  repeat match type of H with
         | bind ?m _ = Ok _ =>
             let E := fresh "E" in
             destruct m eqn:E; cbn [bind] in H; [| discriminate H]
         end.

Lemma py_get_group_threshold : forall policy grp g key d t,
  py_get policy grp empty_dict = Ok g ->
  py_get g key d = Ok t ->
  t = policy_threshold policy grp key d.
Proof.
  intros policy grp g key d t Hg Ht.
  destruct policy as [| | | | | | m]; cbn in Hg; try discriminate Hg.
  cbn. destruct (assoc grp m) as [v|] eqn:Ea.
  - injection Hg as <-.
    destruct v; cbn in Ht; try discriminate Ht.
    destruct (assoc key kvs); congruence.
  - injection Hg as <-. cbn in Ht. congruence.
Qed.

Lemma py_get_guarded_group_threshold : forall policy grp g key d t,
  py_get policy grp empty_dict = Ok g ->
  py_get (if is_dict g then g else empty_dict) key d = Ok t ->
  t = policy_threshold policy grp key d.
Proof.
  intros policy grp g key d t Hg Ht.
  destruct policy as [| | | | | | m]; cbn in Hg; try discriminate Hg.
  cbn. destruct (assoc grp m) as [v|] eqn:Ea.
  - injection Hg as <-.
    destruct v; cbn in Ht; try congruence.
    destruct (assoc key kvs); congruence.
  - injection Hg as <-. cbn in Ht. congruence.
Qed.

Lemma status_loop_fail : forall cs,
  status_loop cs = FAIL <-> exists c, In c cs /\ result c = FAIL.
Proof.
  induction cs as [| c cs IH]; cbn.
  - split; [discriminate | intros (c & [] & _)].
  - destruct (result c) eqn:Er.
    + rewrite IH. split.
      * intros (c' & Hin & Hr). eauto.
      * intros (c' & [<- | Hin] & Hr); [congruence | eauto].
    + split; [intros _; eauto | reflexivity].
    + rewrite IH. split.
      * intros (c' & Hin & Hr). eauto.
      * intros (c' & [<- | Hin] & Hr); [congruence | eauto].
Qed.

Lemma status_loop_pass_or_fail : forall cs,
  status_loop cs = PASS \/ status_loop cs = FAIL.
Proof.
  induction cs as [| c cs IH]; cbn; [auto |].
  destruct (result c); auto.
Qed.

Lemma pyval_none_dec : forall v, {v = PyNone} + {v <> PyNone}.
Proof. intros []; (left; reflexivity) || (right; discriminate). Qed.

Lemma check_spec : forall nm v o thr c,
  _check nm v o thr = Ok c ->
  name c = nm /\ value c = v /\ op c = o /\ threshold c = thr /\
  (v = PyNone -> result c = SKIP) /\
  (v <> PyNone -> exists b, apply_op o v thr = Ok b /\
                            result c = if b then PASS else FAIL).
Proof.
  intros nm v o thr c H. unfold _check in H.
  destruct v;
    try (injection H as <-; cbn; repeat split; try reflexivity;
         intros Hn; exfalso; apply Hn; reflexivity);
    (destruct (apply_op o _ thr) as [ok|] eqn:Ea; cbn [bind] in H; [| discriminate H];
     injection H as <-; cbn; repeat split; try reflexivity;
     [ intros Hn; discriminate Hn | intros _; exists ok; split; reflexivity ]).
Qed.

Section GateFacts.

Variable ln : Q -> pyfloat.
Variable ks_2samp : list Q -> list Q -> option pyfloat.
Variable float_of_str : string -> option pyfloat.
Variable int_of_str : string -> option Z.

Local Abbreviation main := (Gate.main ln ks_2samp float_of_str int_of_str).
Local Abbreviation _observed := (Gate._observed ln ks_2samp float_of_str int_of_str).
Local Abbreviation py_int := (Gate.py_int int_of_str).


(** The shape of a completed run of [main]. *)
Lemma main_shape : forall w code r,
  main w = Ok (code, r) ->
  exists pol obs c1 c2 c3 c4 c5 c6 c7 n7,
    load_policy (policy_yaml w) = Ok pol /\
    _observed w pol = Ok obs /\
    _check "drift.psi" (of_optQ (obs_max_psi obs)) "<"
      (policy_threshold pol "drift" "psi_fail" dflt_psi) = Ok c1 /\
    _check "drift.ks" (of_optQ (obs_max_ks obs)) "<"
      (policy_threshold pol "drift" "ks_fail" dflt_ks) = Ok c2 /\
    _check "performance.auroc" (of_optf (obs_auroc obs)) ">="
      (policy_threshold pol "performance" "min_auroc" dflt_auroc) = Ok c3 /\
    _check "performance.auprc" (of_optf (obs_auprc obs)) ">="
      (policy_threshold pol "performance" "min_auprc" dflt_auprc) = Ok c4 /\
    _check "fairness.parity_gap" (of_optf (obs_parity_gap obs)) "<="
      (policy_threshold pol "fairness" "parity_gap_fail" dflt_parity) = Ok c5 /\
    _check "explainability.shap_artifact_present"
      (PyBool (obs_shap_artifact_present obs)) "=="
      (PyBool (truthy (policy_threshold pol "explainability"
                         "require_shap_artifact" (PyBool true)))) = Ok c6 /\
    py_int (policy_threshold pol "explainability" "top_features_min" (PyInt 2))
      = Ok n7 /\
    _check "explainability.top_features_min"
      (of_optZ (obs_top_features_detected obs)) ">=" (PyInt n7) = Ok c7 /\
    checks r = [c1; c2; c3; c4; c5; c6; c7] /\
    status r = status_loop [c1; c2; c3; c4; c5; c6; c7] /\
    policy r = pol /\
    observed_metrics r = obs /\
    code = (if outcome_eqb (status r) PASS then 0%Z else 1%Z).
Proof.
  intros w code r H. unfold Gate.main in H. res_inv H.
  injection H as <- <-.
  pose proof (py_get_guarded_group_threshold _ _ _ _ _ _ E1 E2) as T1.
  pose proof (py_get_guarded_group_threshold _ _ _ _ _ _ E1 E4) as T2.
  pose proof (py_get_group_threshold _ _ _ _ _ _ E6 E7) as T3.
  pose proof (py_get_group_threshold _ _ _ _ _ _ E6 E9) as T4.
  pose proof (py_get_group_threshold _ _ _ _ _ _ E11 E12) as T5.
  pose proof (py_get_group_threshold _ _ _ _ _ _ E14 E15) as T6.
  pose proof (py_get_group_threshold _ _ _ _ _ _ E14 E17) as T7.
  subst.
  exists a, a0, a3, a5, a8, a10, a13, a16, a19, a18.
  cbn [checks status policy observed_metrics].
  repeat split; assumption.
Qed.

Lemma check_result_spec : forall nm v o thr c,
  _check nm v o thr = Ok c ->
  (result c = SKIP <-> value c = PyNone) /\
  (value c <> PyNone ->
     (result c = PASS <-> apply_op (op c) (value c) (threshold c) = Ok true) /\
     (result c = FAIL <-> apply_op (op c) (value c) (threshold c) = Ok false)).
Proof.
  intros nm v o thr c H.
  destruct (check_spec _ _ _ _ _ H) as (_ & Hv & Ho & Ht & Hskip & Hres).
  rewrite Hv, Ho, Ht.
  destruct (pyval_none_dec v) as [-> | Hn].
  - split; [split; auto | intros Hn; exfalso; apply Hn; reflexivity].
  - destruct (Hres Hn) as (b & Ea & Er). rewrite Ea, Er.
    split; [| intros _; destruct b; repeat split; intros; congruence].
    split; [destruct b; intros He; discriminate He
           | intros ->; exfalso; apply Hn; reflexivity].
Qed.

Lemma observed_shap : forall w pol obs,
  _observed w pol = Ok obs ->
  shap_present (_load_json (shap_top_features_json w) empty_dict)
    = Ok (obs_shap_artifact_present obs).
Proof.
  intros w pol obs H. unfold Gate._observed in H. res_inv H.
  injection H as <-. cbn [obs_shap_artifact_present]. first [reflexivity | assumption].
Qed.


Lemma load_json_missing : forall a d, missing a -> _load_json a d = d.
Proof. intros a d [-> | ->]; reflexivity. Qed.

Lemma observed_all_absent : forall w pol,
  missing (performance_metrics_json w) ->
  missing (shap_top_features_json w) ->
  missing (fairness_summary_json w) ->
  data_prepared_baseline_csv w = DataAbsent \/ data_prepared_current_csv w = DataAbsent ->
  _observed w pol = Ok obs_all_null.
Proof.
  intros w pol Hp Hs Hf Hd. unfold Gate._observed.
  rewrite !load_json_missing by assumption.
  assert (Gate._drift_summary ln ks_2samp w pol = Ok (None, None)) as ->.
  { unfold Gate._drift_summary.
    destruct Hd as [-> | ->]; [reflexivity |].
    destruct (data_prepared_baseline_csv w); reflexivity. }
  reflexivity.
Qed.

Ltac in7 H :=
  cbn [In] in H;
  destruct H as [<- | [<- | [<- | [<- | [<- | [<- | [<- | []]]]]]]].

(** C1: in every completed run of the gate, each check's result is SKIP
    exactly when its value is None; for a non-None value it is PASS when the
    check's comparison of (value, threshold) holds and FAIL when it does not;
    the overall status is FAIL exactly when some check is FAIL, and PASS
    otherwise (SKIP checks never make it FAIL). *)
Theorem gate_check_results : forall w code r,
  main w = Ok (code, r) ->
  (forall c, In c (checks r) ->
     (result c = SKIP <-> value c = PyNone) /\
     (value c <> PyNone ->
        (result c = PASS <-> apply_op (op c) (value c) (threshold c) = Ok true) /\
        (result c = FAIL <-> apply_op (op c) (value c) (threshold c) = Ok false))) /\
  (status r = FAIL <-> exists c, In c (checks r) /\ result c = FAIL) /\
  (status r = PASS <-> ~ exists c, In c (checks r) /\ result c = FAIL).
Proof.
  intros w code r H.
  destruct (main_shape _ _ _ H)
    as (pol & obs & c1 & c2 & c3 & c4 & c5 & c6 & c7 & n7 &
        _ & _ & H1 & H2 & H3 & H4 & H5 & H6 & _ & H7 & Hc & Hs & _ & _ & _).
  rewrite Hc, Hs. split; [| split].
  - intros c Hin. in7 Hin; eapply check_result_spec; eassumption.
  - apply status_loop_fail.
  - rewrite <- status_loop_fail.
    destruct (status_loop_pass_or_fail [c1; c2; c3; c4; c5; c6; c7]) as [E | E];
      rewrite E; split; intros; congruence.
Qed.

(** C2 (amended): every completed run evaluates exactly seven checks, in the
    order drift.psi (<), drift.ks (<), performance.auroc (>=),
    performance.auprc (>=), fairness.parity_gap (<=),
    explainability.shap_artifact_present (==),
    explainability.top_features_min (>=), on the observed max_psi, max_ks,
    auroc, auprc, parity_gap, shap_artifact_present and
    top_features_detected; the first five thresholds are the policy's nested
    values when present and 0.2, 0.2, 0.75, 0.2, 0.05 otherwise; the sixth
    is the truthiness of require_shap_artifact (default true) and the seventh
    is int() of top_features_min (default 2), which truncates a float. *)
Theorem gate_check_table : forall w code r,
  main w = Ok (code, r) ->
  let o := observed_metrics r in
  let p := policy r in
  map name (checks r) =
    ["drift.psi"; "drift.ks"; "performance.auroc"; "performance.auprc";
     "fairness.parity_gap"; "explainability.shap_artifact_present";
     "explainability.top_features_min"] /\
  map op (checks r) = ["<"; "<"; ">="; ">="; "<="; "=="; ">="] /\
  map value (checks r) =
    [of_optQ (obs_max_psi o); of_optQ (obs_max_ks o); of_optf (obs_auroc o);
     of_optf (obs_auprc o); of_optf (obs_parity_gap o);
     PyBool (obs_shap_artifact_present o); of_optZ (obs_top_features_detected o)] /\
  exists n,
    py_int (policy_threshold p "explainability" "top_features_min" (PyInt 2)) = Ok n /\
    map threshold (checks r) =
      [policy_threshold p "drift" "psi_fail" dflt_psi;
       policy_threshold p "drift" "ks_fail" dflt_ks;
       policy_threshold p "performance" "min_auroc" dflt_auroc;
       policy_threshold p "performance" "min_auprc" dflt_auprc;
       policy_threshold p "fairness" "parity_gap_fail" dflt_parity;
       PyBool (truthy (policy_threshold p "explainability" "require_shap_artifact"
                         (PyBool true)));
       PyInt n].
Proof.
  intros w code r H o p.
  destruct (main_shape _ _ _ H)
    as (pol & obs & c1 & c2 & c3 & c4 & c5 & c6 & c7 & n7 &
        _ & _ & H1 & H2 & H3 & H4 & H5 & H6 & Hn & H7 & Hc & _ & Hp & Ho & _).
  subst o p. rewrite Hc, Hp, Ho.
  apply check_spec in H1 as (N1 & V1 & O1 & T1 & _).
  apply check_spec in H2 as (N2 & V2 & O2 & T2 & _).
  apply check_spec in H3 as (N3 & V3 & O3 & T3 & _).
  apply check_spec in H4 as (N4 & V4 & O4 & T4 & _).
  apply check_spec in H5 as (N5 & V5 & O5 & T5 & _).
  apply check_spec in H6 as (N6 & V6 & O6 & T6 & _).
  apply check_spec in H7 as (N7 & V7 & O7 & T7 & _).
  cbn [map].
  rewrite N1, N2, N3, N4, N5, N6, N7, O1, O2, O3, O4, O5, O6, O7,
          V1, V2, V3, V4, V5, V6, V7, T1, T2, T3, T4, T5, T6, T7.
  repeat split. exists n7. split; [assumption | reflexivity].
Qed.

(** C3 (amended): when no upstream artifact is available (the three JSON
    reports missing or unreadable, and a data file missing), every completed
    run records all observed fields as None except shap_artifact_present,
    which is false; checks 1-5 and 7 are SKIP, and the
    shap_artifact_present check, hence the overall status, is FAIL when
    require_shap_artifact is truthy (the default) and PASS otherwise.  With
    no policy file the run completes, with status FAIL and exit code 1. *)
Theorem gate_all_absent : forall w,
  missing (performance_metrics_json w) ->
  missing (shap_top_features_json w) ->
  missing (fairness_summary_json w) ->
  data_prepared_baseline_csv w = DataAbsent \/ data_prepared_current_csv w = DataAbsent ->
  (forall code r,
     main w = Ok (code, r) ->
     let sh := if truthy (policy_threshold (policy r) "explainability"
                            "require_shap_artifact" (PyBool true))
               then FAIL else PASS in
     observed_metrics r = obs_all_null /\
     map result (checks r) = [SKIP; SKIP; SKIP; SKIP; SKIP; sh; SKIP] /\
     status r = sh /\
     code = (if outcome_eqb sh PASS then 0%Z else 1%Z)) /\
  (policy_yaml w = PolicyAbsent ->
     exists r, main w = Ok (1%Z, r) /\ status r = FAIL /\
               observed_metrics r = obs_all_null).
Proof.
  intros w Hp Hs Hf Hd. split.
  - intros code r H sh.
    destruct (main_shape _ _ _ H)
      as (pol & obs & c1 & c2 & c3 & c4 & c5 & c6 & c7 & n7 &
          _ & Hobs & H1 & H2 & H3 & H4 & H5 & H6 & _ & H7 & Hc & Hst & Hpol & Ho & Hcode).
    rewrite (observed_all_absent _ _ Hp Hs Hf Hd) in Hobs.
    injection Hobs as <-.
    subst sh. rewrite Hpol in *. rewrite Hc. rewrite Ho.
    unfold _check in H1, H2, H3, H4, H5, H7. cbn in H1, H2, H3, H4, H5, H7.
    injection H1 as <-. injection H2 as <-. injection H3 as <-.
    injection H4 as <-. injection H5 as <-. injection H7 as <-.
    unfold _check, apply_op in H6. cbn in H6.
    destruct (truthy (policy_threshold pol "explainability" "require_shap_artifact"
                        (PyBool true)));
      cbn in H6; injection H6 as <-; cbn in Hst |- *; rewrite Hst in Hcode |- *;
      cbn in Hcode; auto.
  - intros Hpol. unfold Gate.main. rewrite Hpol. cbn [load_policy bind].
    rewrite (observed_all_absent _ _ Hp Hs Hf Hd).
    eexists. split; [reflexivity | split; reflexivity].
Qed.

(** C9 (amended): a completed run returns 0 with status PASS and 1 with
    status FAIL; a malformed policy file makes the run raise YAMLError before
    any verdict, and the process then exits with 1, the same code as a
    FAIL. *)
Theorem gate_exit_codes : forall w,
  (forall code r, main w = Ok (code, r) ->
     process_exit (main w) = code /\
     ((status r = PASS /\ code = 0%Z) \/ (status r = FAIL /\ code = 1%Z))) /\
  (policy_yaml w = PolicyMalformed ->
     main w = Raise YAMLError /\ process_exit (main w) = 1%Z).
Proof.
  intros w. split.
  - intros code r H. rewrite H. split; [reflexivity |].
    destruct (main_shape _ _ _ H)
      as (_ & _ & c1 & c2 & c3 & c4 & c5 & c6 & c7 & _ &
          _ & _ & _ & _ & _ & _ & _ & _ & _ & _ & _ & Hst & _ & _ & Hcode).
    rewrite Hcode. rewrite Hst.
    destruct (status_loop_pass_or_fail [c1; c2; c3; c4; c5; c6; c7]) as [E | E];
      rewrite E; auto.
  - intros Hpol. unfold Gate.main. rewrite Hpol. split; reflexivity.
Qed.

(** C10: in every completed run the value of the
    explainability.shap_artifact_present check is the boolean observed
    shap_artifact_present, never None, so that check is never SKIP; when the
    SHAP artifact is missing or unreadable the observed value is false and,
    with require_shap_artifact truthy (as by default), the check is FAIL. *)
Theorem gate_shap_check_never_skips : forall w code r,
  main w = Ok (code, r) ->
  exists c,
    nth_error (checks r) 5 = Some c /\
    name c = "explainability.shap_artifact_present" /\
    value c = PyBool (obs_shap_artifact_present (observed_metrics r)) /\
    result c <> SKIP /\
    (missing (shap_top_features_json w) ->
       obs_shap_artifact_present (observed_metrics r) = false /\
       (truthy (policy_threshold (policy r) "explainability" "require_shap_artifact"
                  (PyBool true)) = true ->
        result c = FAIL)).
Proof.
  intros w code r H.
  destruct (main_shape _ _ _ H)
    as (pol & obs & c1 & c2 & c3 & c4 & c5 & c6 & c7 & n7 &
        _ & Hobs & _ & _ & _ & _ & _ & H6 & _ & _ & Hc & _ & Hpol & Ho & _).
  exists c6. rewrite Hc, Hpol, Ho. cbn [nth_error].
  pose proof (check_spec _ _ _ _ _ H6) as (N6 & V6 & _ & _ & _ & R6).
  destruct (R6 ltac:(discriminate)) as (b & Ea & Er).
  split; [reflexivity | split; [exact N6 | split; [exact V6 | split]]].
  - rewrite Er. destruct b; discriminate.
  - intros Hm. apply observed_shap in Hobs.
    rewrite load_json_missing in Hobs by exact Hm.
    cbn in Hobs. injection Hobs as Hsp. rewrite <- Hsp.
    split; [reflexivity |].
    intros Ht. rewrite Ht in Ea. cbn in Ea. injection Ea as <-.
    rewrite <- Hsp in Er. exact Er.
Qed.

End GateFacts.

(* ------------------------------------------------------------------ *)
(** * Drift monitor *)

(** C4: for every pair of samples and every [bins >= 1], [_psi] returns a
    finite double: exactly 0.0 when a sample is empty once its non-finite
    values are filtered out, 0.0 when the computed statistic is not finite,
    and the computed statistic otherwise. *)
Theorem psi_finite : forall (ln : Q -> pyfloat) expected actual bins,
  (1 <= bins)%nat ->
  pf_isfinite (_psi ln expected actual bins) = true /\
  (finite_part expected = [] \/ finite_part actual = [] ->
     _psi ln expected actual bins = PF 0) /\
  (finite_part expected <> [] -> finite_part actual <> [] ->
     let raw := psi_raw ln (finite_part expected) (finite_part actual) bins in
     (pf_isfinite raw = false -> _psi ln expected actual bins = PF 0) /\
     (pf_isfinite raw = true -> _psi ln expected actual bins = raw)).
Proof.
  intros ln expected actual bins _. unfold _psi.
  destruct (finite_part expected) as [| e es], (finite_part actual) as [| a as_].
  1-3: split; [reflexivity | split; [intros _; reflexivity |]];
       intros H1 H2; exfalso; first [apply H1; reflexivity | apply H2; reflexivity].
  destruct (pf_isfinite (psi_raw ln (e :: es) (a :: as_) bins)) eqn:E.
  - split; [exact E | split; [intros [H | H]; discriminate H |]].
    intros _ _. cbv zeta. split; intros E'; congruence.
  - split; [reflexivity | split; [intros [H | H]; discriminate H |]].
    intros _ _. cbv zeta. split; intros E'; congruence.
Qed.


Lemma mem_str_In : forall x l, mem_str x l = true <-> In x l.
Proof.
  intros x l. unfold mem_str. rewrite existsb_exists. split.
  - intros (y & Hin & E). apply String.eqb_eq in E. subst y. exact Hin.
  - intros Hin. exists x. split; [exact Hin | apply String.eqb_refl].
Qed.

Lemma mem_str_false : forall x l, mem_str x l = false <-> ~ In x l.
Proof.
  intros x l. rewrite <- mem_str_In. destruct (mem_str x l); split; congruence.
Qed.

(** The per-column test of the loop, on a column of the baseline. *)
Lemma compare_cols_test : forall baseline current ignore_cols c,
  In c (columns baseline) ->
  (mem_str c (columns current)
   && negb (looks_like_id_or_time c || mem_str (str_lower c) (map str_lower ignore_cols))
   && is_numeric_dtype baseline c && is_numeric_dtype current c = true
   <-> qualifies baseline current ignore_cols c).
Proof.
  intros baseline current ignore_cols c Hb. unfold qualifies, looks_like_id_or_time.
  rewrite !andb_true_iff, negb_true_iff, !orb_false_iff, mem_str_In, mem_str_false.
  tauto.
Qed.

(** C6: a column is selected for comparison exactly when it qualifies, and
    the selected columns are the baseline's columns, in their order, kept
    by a test that on every baseline column holds exactly when the column
    qualifies. *)
Theorem compare_cols_selection : forall baseline current ignore_cols,
  (forall c, In c (Monitors.compare_cols baseline current ignore_cols)
             <-> qualifies baseline current ignore_cols c) /\
  exists sel : string -> bool,
    (forall c, In c (columns baseline) ->
               (sel c = true <-> qualifies baseline current ignore_cols c)) /\
    Monitors.compare_cols baseline current ignore_cols = filter sel (columns baseline).
Proof.
  intros baseline current ignore_cols.
  split.
  - intros c. unfold Monitors.compare_cols. rewrite filter_In. split.
    + intros (Hb & H). apply compare_cols_test; assumption.
    + intros Hq. split; [apply Hq |]. apply compare_cols_test; [apply Hq | exact Hq].
  - eexists. split; [| reflexivity].
    intros c Hb. apply compare_cols_test. exact Hb.
Qed.

Lemma Qmax_cases : forall q m,
  (Qmax q m = q \/ Qmax q m = m) /\ q <= Qmax q m /\ m <= Qmax q m.
Proof.
  intros q m. unfold Qmax, GenericMinMax.gmax.
  destruct (Qcompare q m) eqn:E.
  - apply Qeq_alt in E. split; [left; reflexivity |].
    split; [apply Qle_refl | apply Qle_lteq; right; symmetry; exact E].
  - apply Qlt_alt in E. split; [right; reflexivity |].
    split; [apply Qlt_le_weak; exact E | apply Qle_refl].
  - apply Qgt_alt in E. split; [left; reflexivity |].
    split; [apply Qle_refl | apply Qlt_le_weak; exact E].
Qed.

Lemma max_skipna_none : forall xs,
  max_skipna xs = None <-> forall x, In x xs -> x = None.
Proof.
  induction xs as [| [q|] xs IH]; cbn.
  - split; [intros _ x [] | reflexivity].
  - destruct (max_skipna xs); split; try discriminate;
      intros H; specialize (H (Some q) (or_introl eq_refl)); discriminate H.
  - rewrite IH. split.
    + intros H x [<- | Hin]; [reflexivity | apply H; exact Hin].
    + intros H x Hin. apply H. right. exact Hin.
Qed.

Lemma max_skipna_some : forall xs m,
  max_skipna xs = Some m ->
  In (Some m) xs /\ (forall q, In (Some q) xs -> q <= m).
Proof.
  induction xs as [| [q|] xs IH]; cbn; intros m H.
  - discriminate H.
  - destruct (max_skipna xs) as [m'|] eqn:E.
    + injection H as <-.
      destruct (IH m' eq_refl) as (Hin & Hle).
      destruct (Qmax_cases q m') as ([-> | ->] & Hq & Hm').
      * split; [left; reflexivity |].
        intros q' [Hq' | Hq']; [injection Hq' as ->; apply Qle_refl |].
        apply Qle_trans with m'; [apply Hle; exact Hq' | ].
        exact Hm'.
      * split; [right; exact Hin |].
        intros q' [Hq' | Hq']; [injection Hq' as ->; exact Hq | apply Hle; exact Hq'].
    + injection H as <-. split; [left; reflexivity |].
      intros q' [Hq' | Hq']; [injection Hq' as ->; apply Qle_refl |].
      apply max_skipna_none with (x := Some q') in E; [discriminate E | exact Hq'].
  - destruct (IH m H) as (Hin & Hle). split; [right; exact Hin |].
    intros q' [Hq' | Hq']; [discriminate Hq' | apply Hle; exact Hq'].
Qed.

Lemma max_psi_skipna : forall rows, max_psi rows = max_skipna (map psi rows).
Proof. intros []; reflexivity. Qed.

Lemma max_ks_skipna : forall rows, max_ks rows = max_skipna (map ks rows).
Proof. intros []; reflexivity. Qed.

(** The aggregate of one statistic over the rows. *)
Lemma aggregate_spec : forall (stat : row -> option Q) rows,
  (max_skipna (map stat rows) = None <-> forall r, In r rows -> stat r = None) /\
  (forall m, max_skipna (map stat rows) = Some m ->
     (exists r, In r rows /\ stat r = Some m) /\
     (forall r q, In r rows -> stat r = Some q -> q <= m)).
Proof.
  intros stat rows. split.
  - rewrite max_skipna_none. split.
    + intros H r Hr. apply H. apply in_map. exact Hr.
    + intros H x Hx. apply in_map_iff in Hx as (r & <- & Hr). apply H. exact Hr.
  - intros m Hm. apply max_skipna_some in Hm as (Hin & Hle). split.
    + apply in_map_iff in Hin as (r & E & Hr). exists r. split; assumption.
    + intros r q Hr Hq. apply Hle. rewrite <- Hq. apply in_map. exact Hr.
Qed.

Lemma opt_finite_spec : forall x,
  (opt_finite x = None <-> pf_isfinite x = false) /\
  (forall q, opt_finite x = Some q <-> x = PF q).
Proof.
  intros []; cbn; (split; [split; congruence |]); intros q'; split; congruence.
Qed.

Section Rows.

Variable ln : Q -> pyfloat.
Variable ks_2samp : list Q -> list Q -> option pyfloat.

(** Every row of the summary is the row of one selected column. *)
Lemma compare_dataframes_rows : forall baseline current ignore_cols id_cols r,
  In r (Monitors.compare_dataframes ln ks_2samp baseline current ignore_cols id_cols) ->
  exists ign p k,
    In (feature r) (Monitors.compare_cols baseline current ign) /\
    Monitors.feature_stats ln ks_2samp baseline current (feature r) = Some (p, k) /\
    psi r = opt_finite p /\ ks r = opt_finite k /\
    drift_flag r = pf_le (PF drift_flag_threshold) p || pf_le (PF drift_flag_threshold) k.
Proof.
  intros baseline current ignore_cols id_cols r H.
  unfold Monitors.compare_dataframes in H. apply in_flat_map in H as (c & Hc & Hr).
  unfold Monitors.feature_row in Hr.
  destruct (Monitors.feature_stats ln ks_2samp baseline current c) as [[p k]|] eqn:E;
    cbn in Hr; [| destruct Hr].
  destruct Hr as [<- | []]. cbn.
  eexists. exists p, k. repeat split; [exact Hc | exact E].
Qed.

End Rows.

(** C7: in the summary returned by [compare_dataframes], a feature's psi
    (resp. ks) is None exactly when the computed statistic is not finite and
    is its value otherwise; [max_psi] is None exactly when no feature has a
    finite psi, and otherwise is a finite psi of some feature that bounds
    every finite psi; likewise for [max_ks]. *)
Theorem drift_summary_aggregates :
  forall ln ks_2samp baseline current ignore_cols id_cols,
  let rows :=
    Monitors.compare_dataframes ln ks_2samp baseline current ignore_cols id_cols in
  (forall r, In r rows -> exists p k,
     Monitors.feature_stats ln ks_2samp baseline current (feature r) = Some (p, k) /\
     (psi r = None <-> pf_isfinite p = false) /\ (forall q, psi r = Some q <-> p = PF q) /\
     (ks r = None <-> pf_isfinite k = false) /\ (forall q, ks r = Some q <-> k = PF q)) /\
  (max_psi rows = None <-> forall r, In r rows -> psi r = None) /\
  (forall m, max_psi rows = Some m ->
     (exists r, In r rows /\ psi r = Some m) /\
     (forall r q, In r rows -> psi r = Some q -> q <= m)) /\
  (max_ks rows = None <-> forall r, In r rows -> ks r = None) /\
  (forall m, max_ks rows = Some m ->
     (exists r, In r rows /\ ks r = Some m) /\
     (forall r q, In r rows -> ks r = Some q -> q <= m)).
Proof.
  intros ln ks_2samp baseline current ignore_cols id_cols rows.
  rewrite max_psi_skipna, max_ks_skipna.
  destruct (aggregate_spec psi rows) as (Pn & Ps).
  destruct (aggregate_spec ks rows) as (Kn & Ks).
  split; [| split; [exact Pn | split; [exact Ps | split; [exact Kn | exact Ks]]]].
  intros r Hr.
  destruct (compare_dataframes_rows ln ks_2samp _ _ _ _ r Hr)
    as (ign & p & k & _ & Hs & Hp & Hk & _).
  exists p, k. rewrite Hp, Hk.
  destruct (opt_finite_spec p) as (P1 & P2), (opt_finite_spec k) as (K1 & K2).
  split; [exact Hs | split; [exact P1 | split; [exact P2 | split; [exact K1 | exact K2]]]].
Qed.

(** C8: for every feature of the summary returned by [compare_dataframes],
    drift_flag is true exactly when psi >= 0.10 or ks >= 0.10 (Python's
    comparison of the computed doubles, false on NaN), a threshold distinct
    from the gate's default psi and ks fail thresholds (0.2). *)
Theorem drift_flag_rule :
  forall ln ks_2samp baseline current ignore_cols id_cols r,
  In r (Monitors.compare_dataframes ln ks_2samp baseline current ignore_cols id_cols) ->
  exists p k,
    Monitors.feature_stats ln ks_2samp baseline current (feature r) = Some (p, k) /\
    (drift_flag r = true <->
       py_ge (PyFloat p) (PyFloat (PF (1 # 10))) = Ok true \/
       py_ge (PyFloat k) (PyFloat (PF (1 # 10))) = Ok true) /\
    PyFloat (PF drift_flag_threshold) <> dflt_psi /\
    PyFloat (PF drift_flag_threshold) <> dflt_ks.
Proof.
  intros ln ks_2samp baseline current ignore_cols id_cols r Hr.
  destruct (compare_dataframes_rows ln ks_2samp _ _ _ _ r Hr)
    as (ign & p & k & _ & Hs & _ & _ & Hf).
  exists p, k. split; [exact Hs |].
  split; [| split; unfold dflt_psi, dflt_ks, drift_flag_threshold; discriminate].
  rewrite Hf. unfold py_ge, py_le, drift_flag_threshold. cbn [py_num].
  rewrite orb_true_iff.
  split; intros [H | H]; [left | right | left | right];
    first [rewrite H; reflexivity | injection H as H; exact H].
Qed.

(* ------------------------------------------------------------------ *)
(** * [_ks_stat] *)

Import PerformanceMetrics.

Lemma insert_by_score_count : forall (f : pyfloat * Z -> bool) p l,
  List.length (filter f (insert_by_score p l)) = List.length (filter f (p :: l)).
Proof.
  intros f p l. induction l as [| q l IH]; cbn; [reflexivity |].
  destruct (pf_lt (fst p) (fst q)); [reflexivity |].
  cbn [filter]. cbn [filter] in IH.
  destruct (f q), (f p); cbn [List.length] in IH |- *; lia.
Qed.

Lemma sort_by_score_count_acc : forall (f : pyfloat * Z -> bool) l acc,
  List.length (filter f (fold_left (fun acc p => insert_by_score p acc) l acc))
  = (List.length (filter f l) + List.length (filter f acc))%nat.
Proof.
  intros f l. induction l as [| p l IH]; intros acc; cbn; [reflexivity |].
  rewrite IH. rewrite (insert_by_score_count f p acc). cbn. destruct (f p); cbn; lia.
Qed.

(** Sorting keeps the number of pairs of every kind. *)
Lemma sort_by_score_count : forall (f : pyfloat * Z -> bool) l,
  List.length (filter f (sort_by_score l)) = List.length (filter f l).
Proof.
  intros f l. unfold sort_by_score. rewrite sort_by_score_count_acc. cbn. lia.
Qed.

Lemma filter_true_length : forall {A} (l : list A),
  List.length (filter (fun _ => true) l) = List.length l.
Proof. intros A l. induction l; cbn; congruence. Qed.

Lemma sort_by_score_length : forall l,
  List.length (sort_by_score l) = List.length l.
Proof.
  intros l. rewrite <- (filter_true_length (sort_by_score l)),
    <- (filter_true_length l). apply sort_by_score_count.
Qed.

Lemma map_fst_nil_length : forall (l : list (pyfloat * Z)),
  map fst l = [] <-> List.length l = 0%nat.
Proof. intros []; cbn; split; congruence. Qed.

Lemma ratio_bound : forall a b : Z,
  (0 <= a)%Z -> (a <= b)%Z -> (0 < b)%Z ->
  0 <= inject_Z a / inject_Z b <= 1.
Proof.
  intros a b Ha Hab Hb. rewrite Zlt_Qlt in Hb. rewrite Zle_Qle in Ha, Hab.
  split.
  - apply Qle_shift_div_l; [exact Hb |]. rewrite Qmult_0_l. exact Ha.
  - apply Qle_shift_div_r; [exact Hb |]. rewrite Qmult_1_l. exact Hab.
Qed.

Lemma abs_diff_bound : forall x y : Q,
  0 <= x <= 1 -> 0 <= y <= 1 -> 0 <= Qabs (x - y) <= 1.
Proof.
  intros x y Hx Hy. split; [apply Qabs_nonneg |].
  apply Qabs_Qle_condition. lra.
Qed.

(** The loop invariant: [tp] and [fp] plus the label-1 and other pairs still
    to visit never exceed [n1] and [n0], so every rate lies in [0, 1]. *)
Lemma ks_sweep_bound : forall pairs n1 n0 tp fp m,
  (0 < n1)%Z -> (0 < n0)%Z -> (0 <= tp)%Z -> (0 <= fp)%Z ->
  (tp + Z.of_nat (List.length (filter is_pos pairs)) <= n1)%Z ->
  (fp + Z.of_nat (List.length (filter (fun p => negb (is_pos p)) pairs)) <= n0)%Z ->
  0 <= m <= 1 ->
  0 <= ks_sweep n1 n0 tp fp m pairs <= 1.
Proof.
  induction pairs as [| [s y] rest IH]; intros n1 n0 tp fp m H1 H0 Htp Hfp Hp Hn Hm;
    cbn [ks_sweep]; [exact Hm |].
  cbn [filter] in Hp, Hn. change (is_pos (s, y)) with (Z.eqb y 1) in Hp, Hn.
  destruct (Z.eqb y 1); cbv beta iota zeta; cbn [negb List.length] in Hp, Hn;
    apply IH; try lia;
    match goal with
    | |- 0 <= (if Qltb _ ?d then _ else _) <= 1 =>
        assert (0 <= d <= 1) by (apply abs_diff_bound; apply ratio_bound; lia);
        destruct (Qltb m d); assumption
    end.
Qed.

(** C5 (amended): [_ks_stat] filters no score: it returns None exactly when
    the scores of label-1 rows or the scores of the other rows are empty
    (non-finite scores included), and otherwise a value v with
    0 <= v <= 1. *)
Theorem ks_stat_null_and_bounds : forall y_true y_score,
  (_ks_stat y_true y_score = None <->
     pos_scores y_true y_score = [] \/ neg_scores y_true y_score = []) /\
  (forall v, _ks_stat y_true y_score = Some v -> 0 <= v <= 1).
Proof.
  intros y_true y_score. unfold _ks_stat, pos_scores, neg_scores. cbv zeta.
  rewrite !map_fst_nil_length.
  set (P := combine y_score y_true).
  pose proof (sort_by_score_length P) as HL.
  pose proof (sort_by_score_count is_pos P) as HP.
  pose proof (sort_by_score_count (fun p => negb (is_pos p)) P) as HN.
  pose proof (filter_length is_pos P) as HF.
  pose proof (filter_length is_pos (sort_by_score P)) as HF'.
  set (srt := sort_by_score P) in *.
  destruct (Z.of_nat (List.length srt) =? 0)%Z eqn:E0.
  - apply Z.eqb_eq in E0.
    split; [split; [intros _; left; lia | reflexivity] | intros v H; discriminate H].
  - destruct ((Z.of_nat (List.length (filter is_pos srt)) =? 0)%Z
              || (Z.of_nat (List.length srt)
                  - Z.of_nat (List.length (filter is_pos srt)) =? 0)%Z) eqn:E1.
    + apply orb_true_iff in E1. rewrite !Z.eqb_eq in E1.
      split; [split; [intros _; lia | reflexivity] | intros v H; discriminate H].
    + apply orb_false_iff in E1. rewrite !Z.eqb_neq in E1.
      split; [split; [intros H; discriminate H | intros [H | H]; lia] |].
      intros v H. injection H as <-.
      apply ks_sweep_bound; try lia. split; lra.
Qed.

(* ------------------------------------------------------------------ *)
(** * Runs on concrete inputs *)

(** The gate on [w_low_auroc] completes with status FAIL, and C1 applies
    to that run. *)
Lemma gate_check_results_witness :
  exists code r, run w_low_auroc = Ok (code, r) /\ status r = FAIL /\
    exists c, In c (checks r) /\ result c = FAIL.
Proof.
  destruct (run w_low_auroc) as [[code r] | e] eqn:E;
    [| vm_compute in E; discriminate E].
  pose proof (gate_check_results ln_approx ks_zero no_float no_int w_low_auroc
                code r E) as (_ & Hf & _).
  assert (Hs : status r = FAIL).
  { revert E. vm_compute. intros E. injection E as E1 E2. subst r. reflexivity. }
  exists code, r. split; [reflexivity | split; [exact Hs | apply Hf; exact Hs]].
Defined.

(** C2 on [w_fractional_min]: the seventh threshold is [int(2.5)]. *)
Lemma gate_check_table_witness :
  exists code r n, run w_fractional_min = Ok (code, r) /\
    Gate.py_int no_int
      (policy_threshold (policy r) "explainability" "top_features_min" (PyInt 2))
      = Ok n /\
    nth_error (map threshold (checks r)) 6 = Some (PyInt n).
Proof.
  destruct (run w_fractional_min) as [[code r] | e] eqn:E;
    [| vm_compute in E; discriminate E].
  pose proof (gate_check_table ln_approx ks_zero no_float no_int w_fractional_min
                code r E) as H.
  cbv zeta in H. destruct H as (_ & _ & _ & n & Hn & Ht).
  exists code, r, n. split; [reflexivity | split; [exact Hn | rewrite Ht; reflexivity]].
Defined.

(** Counterexample to C2: the policy sets top_features_min to 2.5, yet the
    check compares with 2, and a SHAP summary with 2 top features passes. *)
Lemma gate_top_features_min_truncated :
  exists r, run w_fractional_min = Ok (0%Z, r) /\
    policy_threshold (policy r) "explainability" "top_features_min" (PyInt 2)
      = PyFloat (PF (5 # 2)) /\
    obs_top_features_detected (observed_metrics r) = Some 2%Z /\
    nth_error (checks r) 6 =
      Some {| name := "explainability.top_features_min"; value := PyInt 2;
              op := ">="; threshold := PyInt 2; result := PASS |}.
Proof.
  eexists. split; [reflexivity |]. vm_compute. repeat split.
Qed.

(** C3 on [w_empty], with no policy file. *)
Lemma gate_all_absent_witness :
  exists r, run w_empty = Ok (1%Z, r) /\ status r = FAIL /\
            observed_metrics r = obs_all_null.
Proof.
  exact (proj2 (gate_all_absent ln_approx ks_zero no_float no_int w_empty
                  (or_introl eq_refl) (or_introl eq_refl) (or_introl eq_refl)
                  (or_introl eq_refl)) eq_refl).
Defined.

(** Counterexample to C3: with every artifact absent and no policy file,
    the shap_artifact_present check is FAIL and so is the run (exit 1). *)
Lemma gate_all_absent_fails :
  exists r, run w_empty = Ok (1%Z, r) /\ status r = FAIL /\
    map result (checks r) = [SKIP; SKIP; SKIP; SKIP; SKIP; FAIL; SKIP].
Proof.
  eexists. split; [reflexivity |]. vm_compute. split; reflexivity.
Qed.

(** C4 on samples holding NaN and +inf. *)
Lemma psi_finite_witness :
  (1 <= 10)%nat /\
  pf_isfinite (_psi ln_approx [PF 1; PNaN; PF 3; PF 5] [PF 2; PInf; PF 4] 10) = true.
Proof.
  split; [lia |].
  exact (proj1 (psi_finite ln_approx [PF 1; PNaN; PF 3; PF 5] [PF 2; PInf; PF 4] 10
                  ltac:(lia))).
Defined.

(** Counterexample to C5: the only label-1 score is NaN, so the label-1
    sample is empty once filtered, yet [_ks_stat] returns 1. *)
Lemma ks_stat_counts_nan_score :
  finite_part (pos_scores [1%Z; 0%Z] [PNaN; PF (1 # 2)]) = [] /\
  _ks_stat [1%Z; 0%Z] [PNaN; PF (1 # 2)] = Some 1.
Proof. split; vm_compute; reflexivity. Qed.

(** C8 on the first row of [rows_ex] (feature "Age"). *)
Lemma drift_flag_rule_witness :
  let r := hd {| feature := ""; psi := None; ks := None; drift_flag := false |} rows_ex in
  In r rows_ex /\ feature r = "Age" /\ drift_flag r = true /\
  exists p k,
    Monitors.feature_stats ln_approx ks_zero baseline_ex current_ex (feature r) = Some (p, k) /\
    (drift_flag r = true <->
       py_ge (PyFloat p) (PyFloat (PF (1 # 10))) = Ok true \/
       py_ge (PyFloat k) (PyFloat (PF (1 # 10))) = Ok true) /\
    PyFloat (PF drift_flag_threshold) <> dflt_psi /\
    PyFloat (PF drift_flag_threshold) <> dflt_ks.
Proof.
  intros r.
  assert (H : In r rows_ex) by (vm_compute; left; reflexivity).
  split; [exact H |].
  split; [vm_compute; reflexivity |].
  split; [vm_compute; reflexivity |].
  exact (drift_flag_rule ln_approx ks_zero baseline_ex current_ex (Some ignore_ex) None r H).
Defined.

(** C9: a malformed policy file ends the process with exit status 1, the
    status of a FAIL verdict. *)
Lemma gate_malformed_policy_exit_one :
  run w_bad_policy = Raise YAMLError /\ process_exit (run w_bad_policy) = 1%Z.
Proof. split; reflexivity. Qed.

(** C10 on [w_empty]: the shap_artifact_present check is FAIL. *)
Lemma gate_shap_check_never_skips_witness :
  exists code r c, run w_empty = Ok (code, r) /\
    nth_error (checks r) 5 = Some c /\ result c = FAIL.
Proof.
  destruct (run w_empty) as [[code r] | e] eqn:E;
    [| vm_compute in E; discriminate E].
  destruct (gate_shap_check_never_skips ln_approx ks_zero no_float no_int w_empty
              code r E) as (c & Hc & _ & _ & _ & Hm).
  exists code, r, c. split; [reflexivity | split; [exact Hc |]].
  apply (proj2 (Hm (or_introl eq_refl))).
  revert E. vm_compute. intros E. injection E as E1 E2. subst r. reflexivity.
Defined.

(* ------------------------------------------------------------------ *)
(** * Further properties of the drift monitor *)

Lemma psi_isfinite : forall ln expected actual bins,
  pf_isfinite (_psi ln expected actual bins) = true.
Proof.
  intros ln expected actual bins. unfold _psi.
  destruct (finite_part expected), (finite_part actual); try reflexivity.
  destruct (pf_isfinite (psi_raw ln (q :: l) (q0 :: l0) bins)) eqn:E;
    [exact E | reflexivity].
Qed.

(** [monitors.compare_dataframes] never records a missing psi: every row has a
    finite psi, so [max_psi] is None only for a summary with no row. *)
Theorem compare_dataframes_psi_present :
  forall ln ks_2samp baseline current ignore_cols id_cols,
  let rows :=
    Monitors.compare_dataframes ln ks_2samp baseline current ignore_cols id_cols in
  (forall r, In r rows -> exists q, psi r = Some q) /\
  (max_psi rows = None <-> rows = []).
Proof.
  intros ln ks_2samp baseline current ignore_cols id_cols rows.
  assert (Hp : forall r, In r rows -> exists q, psi r = Some q).
  { intros r Hr.
    destruct (compare_dataframes_rows ln ks_2samp _ _ _ _ r Hr)
      as (ign & p & k & _ & Hs & Hpr & _ & _).
    unfold Monitors.feature_stats in Hs.
    destruct (finite_part (to_numeric_values baseline (feature r))),
             (finite_part (to_numeric_values current (feature r)));
      try discriminate Hs.
    injection Hs as <- _. rewrite Hpr.
    pose proof (psi_isfinite ln (map PF (q :: l)) (map PF (q0 :: l0)) 10) as F.
    cbn [map] in F |- *.
    destruct (_psi ln (PF q :: map PF l) (PF q0 :: map PF l0) 10);
      try discriminate F. exists q1. reflexivity. }
  split; [exact Hp |].
  rewrite max_psi_skipna. destruct (aggregate_spec psi rows) as (Pn & _).
  rewrite Pn. split.
  - destruct rows as [| r rs]; [reflexivity |].
    intros H. destruct (Hp r (or_introl eq_refl)) as (q & Hq).
    rewrite (H r (or_introl eq_refl)) in Hq. discriminate Hq.
  - intros -> r [].
Qed.

(** [monitors.compare_dataframes] has one row per selected column whose
    finite values are non-empty in both datasets, in the baseline's column
    order; [id_cols] is the ignore list only when [ignore_cols] is not
    given. *)
Theorem compare_dataframes_features :
  forall ln ks_2samp baseline current ignore_cols id_cols,
  map feature
    (Monitors.compare_dataframes ln ks_2samp baseline current ignore_cols id_cols) =
  filter (fun c => has_finite_sample baseline c && has_finite_sample current c)
    (Monitors.compare_cols baseline current
       (match ignore_cols, id_cols with
        | Some l, _ => l
        | None, Some l => l
        | None, None => []
        end)).
Proof.
  intros ln ks_2samp baseline current ignore_cols id_cols.
  unfold Monitors.compare_dataframes.
  replace (match match ignore_cols, id_cols with
                 | None, Some ids => Some ids
                 | _, _ => ignore_cols
                 end with Some l => l | None => [] end)
    with (match ignore_cols, id_cols with
          | Some l, _ => l | None, Some l => l | None, None => [] end)
    by (destruct ignore_cols, id_cols; reflexivity).
  induction (Monitors.compare_cols baseline current _) as [| c cs IH];
    [reflexivity |].
  cbn [flat_map filter]. rewrite map_app, IH.
  unfold Monitors.feature_row, Monitors.feature_stats, has_finite_sample.
  destruct (finite_part (to_numeric_values baseline c)),
           (finite_part (to_numeric_values current c)); reflexivity.
Qed.

Lemma clip_lower : forall x lo hi, lo <= hi -> lo <= clip x lo hi.
Proof.
  intros x lo hi H. unfold clip, Qltb.
  destruct (Qle_bool lo x) eqn:E1; cbn [negb].
  - apply Qle_bool_iff in E1.
    destruct (Qle_bool x hi) eqn:E2; cbn [negb]; [exact E1 | exact H].
  - apply Qle_refl.
Qed.

Lemma ratios_pos : forall h r, In r (ratios h) -> 0 < r.
Proof.
  intros h r Hr. unfold ratios in Hr. apply in_map_iff in Hr.
  destruct Hr as (c & <- & _).
  apply Qlt_le_trans with (1 # 1000000); [reflexivity |].
  apply clip_lower. discriminate.
Qed.

Lemma psi_term_nonneg : forall ln a e,
  log_sign ln -> 0 < a -> 0 < e ->
  exists q, pf_scale (a - e) (ln (a / e)) = PF q /\ 0 <= q.
Proof.
  intros ln a e Hl Ha He.
  assert (Hd : 0 < a / e) by (apply Qlt_shift_div_l; [exact He | lra]).
  destruct (Hl (a / e) Hd) as (l & El & Hup & Hdown).
  rewrite El. cbn [pf_scale]. exists ((a - e) * l). split; [reflexivity |].
  destruct (Qlt_le_dec a e) as [Hlt | Hge].
  - assert (l <= 0) by (apply Hdown, Qle_shift_div_r; [exact He | lra]).
    setoid_replace ((a - e) * l) with ((e - a) * (- l)) by ring.
    apply Qmult_le_0_compat; lra.
  - assert (0 <= l) by (apply Hup, Qle_shift_div_l; [exact He | lra]).
    apply Qmult_le_0_compat; lra.
Qed.

Lemma pf_sum_nonneg_acc : forall xs acc,
  0 <= acc -> (forall x, In x xs -> exists q, x = PF q /\ 0 <= q) ->
  exists q, fold_left pf_add xs (PF acc) = PF q /\ 0 <= q.
Proof.
  induction xs as [| x xs IH]; intros acc Hacc Hx.
  - exists acc. split; [reflexivity | exact Hacc].
  - destruct (Hx x (or_introl eq_refl)) as (q & -> & Hq).
    cbn [fold_left pf_add]. apply IH; [lra |].
    intros y Hy. exact (Hx y (or_intror Hy)).
Qed.

(** With a logarithm that has the sign of [np.log], [_psi] is never
    negative: each bin's term [(a - e) * log(a / e)] has clipped ratios
    [a, e >= 1e-6], so both factors have the same sign. *)
Theorem psi_nonneg : forall ln expected actual bins,
  log_sign ln ->
  exists q, _psi ln expected actual bins = PF q /\ 0 <= q.
Proof.
  intros ln expected actual bins Hl. unfold _psi.
  destruct (finite_part expected) as [| x xs];
    [exists 0; split; [reflexivity | lra] |].
  destruct (finite_part actual) as [| y ys];
    [exists 0; split; [reflexivity | lra] |].
  assert (H : exists q, psi_raw ln (x :: xs) (y :: ys) bins = PF q /\ 0 <= q).
  { unfold psi_raw, pf_sum. apply pf_sum_nonneg_acc; [lra |].
    intros t Ht. apply in_map_iff in Ht.
    destruct Ht as ([a e] & <- & Hin).
    apply psi_term_nonneg; [exact Hl | |].
    - eapply ratios_pos, in_combine_l, Hin.
    - eapply ratios_pos, in_combine_r, Hin. }
  destruct H as (q & -> & Hq). exists q. split; [reflexivity | exact Hq].
Qed.

Lemma ln_approx_sign : log_sign ln_approx.
Proof.
  intros x Hx. exists (x - 1). unfold ln_approx.
  split; [reflexivity | split; intros; lra].
Qed.

Lemma psi_nonneg_witness :
  log_sign ln_approx /\
  exists q, _psi ln_approx [PF 1; PF 2; PF 3] [PF 3; PF 4] 10 = PF q /\ 0 <= q.
Proof.
  split; [exact ln_approx_sign |].
  apply (psi_nonneg ln_approx [PF 1; PF 2; PF 3] [PF 3; PF 4] 10).
  exact ln_approx_sign.
Defined.

(* ------------------------------------------------------------------ *)
(** * The gate's drift summary against the monitor *)

Lemma ascii_lower_idem : forall c, ascii_lower (ascii_lower c) = ascii_lower c.
Proof. intros [[] [] [] [] [] [] [] []]; reflexivity. Qed.

Lemma str_lower_idem : forall s, str_lower (str_lower s) = str_lower s.
Proof.
  induction s as [| c s IH]; [reflexivity |].
  cbn [str_lower]. rewrite ascii_lower_idem, IH. reflexivity.
Qed.

Lemma lower_all_lowered : forall v ign,
  lower_all v = Ok ign -> forall s, In s ign -> str_lower s = s.
Proof.
  intros v ign H.
  destruct v as [| | | | | xs | m]; cbn [lower_all] in H; try discriminate H.
  - injection H as <-. intros t Ht. apply in_map_iff in Ht.
    destruct Ht as (c & <- & _). cbn [str_lower].
    rewrite ascii_lower_idem. reflexivity.
  - revert ign H. induction xs as [| x xs IH]; intros ign H.
    + cbn in H. injection H as <-. intros s [].
    + cbn [fold_right] in H. res_inv H.
      destruct x; try discriminate H. injection H as <-.
      intros s' [<- | Hs]; [apply str_lower_idem | exact (IH _ eq_refl s' Hs)].
  - injection H as <-. intros s Hs. apply in_map_iff in Hs.
    destruct Hs as (kv & <- & _). apply str_lower_idem.
Qed.

Lemma map_str_lower_id : forall l,
  (forall s, In s l -> str_lower s = s) -> map str_lower l = l.
Proof.
  induction l as [| s l IH]; intros H; [reflexivity |].
  cbn [map]. rewrite (H s (or_introl eq_refl)), IH; [reflexivity |].
  intros t Ht. exact (H t (or_intror Ht)).
Qed.

Lemma gate_cols_compare_cols : forall base curr ign,
  (forall s, In s ign -> str_lower s = s) ->
  gate_cols base curr ign = Monitors.compare_cols base curr (ign ++ auto_ignored).
Proof.
  intros base curr ign H. unfold gate_cols, Monitors.compare_cols.
  rewrite map_app, (map_str_lower_id ign H).
  change (map str_lower auto_ignored) with auto_ignored.
  apply filter_ext. intros c. unfold mem_str. rewrite existsb_app.
  rewrite orb_assoc. reflexivity.
Qed.

Lemma max_skipna_step : forall v A B,
  max_skipna A = max_skipna (map Some B) ->
  max_skipna (opt_finite v :: A) =
  max_skipna (map Some ((match v with PF q => [q] | _ => [] end) ++ B)).
Proof.
  intros v A B H. destruct v; cbn [opt_finite app map max_skipna];
    rewrite H; reflexivity.
Qed.

Lemma drift_loop_rows : forall ln ks_2samp base curr cols ps kss,
  drift_loop ln ks_2samp base curr cols = Ok (ps, kss) ->
  let rows := flat_map (fun c => match Monitors.feature_row ln ks_2samp base curr c with
                                 | Some r => [r] | None => [] end) cols in
  max_skipna (map psi rows) = list_max ps /\ max_skipna (map ks rows) = list_max kss.
Proof.
  intros ln ks_2samp base curr cols.
  induction cols as [| c cs IH]; intros ps kss H rows.
  - cbn in H. injection H as <- <-. split; reflexivity.
  - subst rows. cbn [drift_loop] in H. cbn [flat_map].
    destruct (Monitors.feature_row ln ks_2samp base curr c) as [r|] eqn:Ef;
      unfold Monitors.feature_row, Monitors.feature_stats in Ef.
    + destruct (finite_part (to_numeric_values base c)) as [| b bs];
        [discriminate Ef |].
      destruct (finite_part (to_numeric_values curr c)) as [| a as_];
        [discriminate Ef |].
      destruct (ks_2samp (b :: bs) (a :: as_)) as [k|]; [| discriminate H].
      injection Ef as <-.
      res_inv H. destruct a0 as [ps0 kss0]. injection H as <- <-.
      destruct (IH ps0 kss0 eq_refl) as (Hp & Hk).
      cbn [app map psi ks]. unfold list_max.
      split; apply max_skipna_step; assumption.
    + destruct (finite_part (to_numeric_values base c)) as [| b bs];
        [exact (IH _ _ H) |].
      destruct (finite_part (to_numeric_values curr c)) as [| a as_];
        [exact (IH _ _ H) |].
      discriminate Ef.
Qed.

(** When both prepared data files are read and [_drift_summary] of the gate
    returns, its [(max_psi, max_ks)] are those of the monitor's
    [compare_dataframes] on the same frames, with the policy's lower-cased
    [drift.ignore_cols] plus the gate's fixed label and score columns as the
    ignore list. *)
Theorem gate_drift_summary_matches_monitor :
  forall ln ks_2samp w policy base curr mp mk,
  data_prepared_baseline_csv w = DataRead base ->
  data_prepared_current_csv w = DataRead curr ->
  _drift_summary ln ks_2samp w policy = Ok (mp, mk) ->
  exists ign,
    lower_all (policy_threshold policy "drift" "ignore_cols" (PyList [])) = Ok ign /\
    let rows := Monitors.compare_dataframes ln ks_2samp base curr
                  (Some (ign ++ auto_ignored)) None in
    mp = max_psi rows /\ mk = max_ks rows.
Proof.
  intros ln ks_2samp w policy base curr mp mk Hb Hc H.
  unfold _drift_summary in H. rewrite Hb, Hc in H. res_inv H.
  rewrite <- (py_get_group_threshold _ _ _ _ _ _ E E0).
  exists a1. split; [exact E1 |]. cbv zeta.
  rewrite (gate_cols_compare_cols base curr a1 (lower_all_lowered _ _ E1)) in H.
  rewrite max_psi_skipna, max_ks_skipna. unfold Monitors.compare_dataframes.
  destruct (Monitors.compare_cols base curr (a1 ++ auto_ignored)) as [| c cs] eqn:Ec.
  - injection H as <- <-. split; reflexivity.
  - res_inv H. destruct a2 as [ps kss]. injection H as <- <-.
    destruct (drift_loop_rows ln ks_2samp base curr (c :: cs) ps kss E2) as (Hp & Hk).
    split; symmetry; assumption.
Qed.

Lemma gate_drift_summary_matches_monitor_witness :
  exists mp mk,
    _drift_summary ln_approx ks_zero w_data policy_ignore_hr = Ok (mp, mk) /\
    exists ign,
      lower_all (policy_threshold policy_ignore_hr "drift" "ignore_cols" (PyList [])) = Ok ign /\
      let rows := Monitors.compare_dataframes ln_approx ks_zero baseline_ex current_ex
                    (Some (ign ++ auto_ignored)) None in
      mp = max_psi rows /\ mk = max_ks rows.
Proof.
  destruct (_drift_summary ln_approx ks_zero w_data policy_ignore_hr)
    as [[mp mk]|e] eqn:E; [| vm_compute in E; discriminate E].
  exists mp, mk. split; [reflexivity |].
  apply (gate_drift_summary_matches_monitor ln_approx ks_zero w_data
           policy_ignore_hr baseline_ex current_ex mp mk);
    [reflexivity | reflexivity | exact E].
Defined.

(* ------------------------------------------------------------------ *)
(** * The policy shapes a completed gate run accepts *)

Lemma py_get_group_ok : forall pol grp g key d t,
  py_get pol grp empty_dict = Ok g -> py_get g key d = Ok t ->
  group_ok pol grp = true.
Proof.
  intros pol grp g key d t Hg Ht.
  destruct pol as [| | | | | | m]; cbn in Hg; try discriminate Hg.
  cbn. destruct (assoc grp m) as [v|]; [| reflexivity].
  injection Hg as <-. destruct v; cbn in Ht; try discriminate Ht. reflexivity.
Qed.

(** A gate run that completes had a policy that is a mapping, whose
    [performance], [fairness] and [explainability] entries are absent or
    mappings, and, when both prepared data files are read, whose [drift]
    entry is absent or a mapping; any other policy (an empty [policy.yaml]
    loads as None) makes [main] raise before a verdict. *)
Theorem gate_policy_shape : forall ln ks_2samp float_of_str int_of_str w code r,
  main ln ks_2samp float_of_str int_of_str w = Ok (code, r) ->
  is_dict (policy r) = true /\
  group_ok (policy r) "performance" = true /\
  group_ok (policy r) "fairness" = true /\
  group_ok (policy r) "explainability" = true /\
  (forall base curr,
     data_prepared_baseline_csv w = DataRead base ->
     data_prepared_current_csv w = DataRead curr ->
     group_ok (policy r) "drift" = true).
Proof.
  intros ln ks_2samp float_of_str int_of_str w code r H.
  unfold Gate.main in H. res_inv H. injection H as _ <-. cbn [policy].
  split; [destruct a; cbn in E6; try discriminate E6; reflexivity |].
  split; [exact (py_get_group_ok _ _ _ _ _ _ E6 E7) |].
  split; [exact (py_get_group_ok _ _ _ _ _ _ E11 E12) |].
  split; [exact (py_get_group_ok _ _ _ _ _ _ E14 E15) |].
  intros base curr Hb Hc.
  unfold _observed in E0. res_inv E0.
  match goal with Hd : _drift_summary _ _ _ _ = Ok _ |- _ =>
    unfold _drift_summary in Hd; rewrite Hb, Hc in Hd; res_inv Hd end.
  match goal with
  | Hg : py_get _ "drift" empty_dict = Ok _, Hk : py_get _ "ignore_cols" _ = Ok _ |- _ =>
      exact (py_get_group_ok _ _ _ _ _ _ Hg Hk)
  end.
Qed.

Lemma gate_policy_shape_witness :
  exists code r, run w_data = Ok (code, r) /\
    is_dict (policy r) = true /\
    group_ok (policy r) "performance" = true /\
    group_ok (policy r) "fairness" = true /\
    group_ok (policy r) "explainability" = true /\
    (forall base curr,
       data_prepared_baseline_csv w_data = DataRead base ->
       data_prepared_current_csv w_data = DataRead curr ->
       group_ok (policy r) "drift" = true).
Proof.
  destruct (run w_data) as [[code r]|e] eqn:E; [| vm_compute in E; discriminate E].
  exists code, r. split; [reflexivity |].
  exact (gate_policy_shape ln_approx ks_zero no_float no_int w_data code r E).
Defined.

(* ------------------------------------------------------------------ *)
(** * Performance metrics helpers *)

Lemma Qltb_true : forall a b, Qltb a b = true -> a < b.
Proof.
  intros a b H. unfold Qltb in H. apply negb_true_iff in H.
  apply Qnot_le_lt. intros Hle. apply Qle_bool_iff in Hle. congruence.
Qed.

Lemma Qltb_false : forall a b, Qltb a b = false -> b <= a.
Proof.
  intros a b H. unfold Qltb in H. apply negb_false_iff in H.
  apply Qle_bool_iff. exact H.
Qed.

Lemma clamp_prob_range : forall p,
  exists q, Metrics.clamp_prob p = PF q /\ Metrics.EPS <= q <= 1 - Metrics.EPS.
Proof.
  intros p. unfold Metrics.clamp_prob, Metrics.py_min, Metrics.py_max.
  destruct p as [x| | |];
    repeat (cbn [pf_lt];
            match goal with
            | |- context [Qltb ?a ?b] =>
                let E := fresh "E" in
                destruct (Qltb a b) eqn:E; [apply Qltb_true in E | apply Qltb_false in E]
            end);
    cbn [pf_lt];
    eexists; (split; [reflexivity |]); unfold Metrics.EPS in *; split; lra.
Qed.

Lemma K_large : 35 <= inject_Z (10 ^ 300).
Proof. apply Qle_bool_iff. vm_compute. reflexivity. Qed.

Lemma K_below_ovf : 36 * inject_Z (10 ^ 300) < inject_Z DBL_OVF.
Proof. unfold Qlt, Z.lt. vm_compute. reflexivity. Qed.

Lemma round_ovf_id : forall q,
  - (36 * inject_Z (10 ^ 300)) <= q <= 36 * inject_Z (10 ^ 300) -> round_ovf q = PF q.
Proof.
  intros q Hq. pose proof K_below_ovf as Hk. pose proof K_large as Hl.
  unfold round_ovf.
  set (K := inject_Z (10 ^ 300)) in *. set (D := inject_Z DBL_OVF) in *.
  clearbody K D.
  destruct (Qle_bool D q) eqn:E1; [apply Qle_bool_iff in E1; lra |].
  destruct (Qle_bool q (- D)) eqn:E2; [apply Qle_bool_iff in E2; lra | reflexivity].
Qed.

Lemma int_mul_bin : forall y a, (y = 0 \/ y = 1)%Z -> -35 <= a <= 0 ->
  Metrics.int_mul y (PF a) = Ok (PF (inject_Z y * a)).
Proof.
  intros y a Hy Ha. pose proof K_large as Hl.
  destruct Hy as [-> | ->]; unfold Metrics.int_mul.
  - replace (float_of_int 0) with (Some (PF (inject_Z 0))) by reflexivity.
    cbn [pf_mul pf_scale pf_finish]. rewrite round_ovf_id; [reflexivity |].
    change (inject_Z 0) with 0. lra.
  - replace (float_of_int 1) with (Some (PF (inject_Z 1))) by reflexivity.
    cbn [pf_mul pf_scale pf_finish]. rewrite round_ovf_id; [reflexivity |].
    change (inject_Z 1) with 1. lra.
Qed.

Section LogLossFacts.

Variable log : pyfloat -> res pyfloat.
Hypothesis log_bounded : forall q, Metrics.EPS <= q <= 1 - Metrics.EPS ->
  exists l, log (PF q) = Ok (PF l) /\ -35 <= l <= 0.

Lemma log_loss_step_ok : forall acc y p,
  (y = 0 \/ y = 1)%Z -> 0 <= acc <= 36 * inject_Z (10 ^ 300) - 35 ->
  exists v, Metrics.log_loss_step log (PF acc) y p = Ok (PF v) /\
    acc <= v <= acc + 35.
Proof.
  intros acc y p Hy Hacc. pose proof K_large as Hl.
  assert (Hy' : (1 - y = 0 \/ 1 - y = 1)%Z) by lia.
  unfold Metrics.log_loss_step.
  destruct (clamp_prob_range p) as (q & -> & Hr).
  destruct (log_bounded q Hr) as (a & -> & Ha). cbn [bind].
  rewrite (int_mul_bin y a Hy Ha). cbn [bind pf_neg pf_add].
  destruct (log_bounded (1 + - q)) as (b & -> & Hb); [unfold Metrics.EPS in *; lra |].
  cbn [bind]. rewrite (int_mul_bin (1 - y) b Hy' Hb). cbn [bind pf_add pf_finish].
  assert (Ht : -35 <= inject_Z y * a + inject_Z (1 - y) * b <= 0).
  { destruct Hy as [-> | ->].
    - change (inject_Z 0) with 0. change (inject_Z (1 - 0)) with 1. lra.
    - change (inject_Z 1) with 1. change (inject_Z (1 - 1)) with 0. lra. }
  rewrite round_ovf_id by lra. cbn [pf_neg pf_add pf_finish].
  rewrite round_ovf_id by lra.
  eexists. split; [reflexivity | lra].
Qed.

Lemma log_loss_loop_ok : forall pairs acc,
  (forall y p, In (y, p) pairs -> (y = 0 \/ y = 1)%Z) -> 0 <= acc ->
  acc + 35 * inject_Z (Z.of_nat (List.length pairs)) <= 36 * inject_Z (10 ^ 300) - 35 ->
  exists v, Metrics.log_loss_loop log (PF acc) pairs = Ok (PF v) /\
    acc <= v <= acc + 35 * inject_Z (Z.of_nat (List.length pairs)).
Proof.
  induction pairs as [| [y p] pairs IH]; intros acc Hb Hacc Hn.
  - exists acc. cbn [Metrics.log_loss_loop]. split; [reflexivity |].
    change (inject_Z (Z.of_nat (List.length []))) with 0. lra.
  - cbn [Datatypes.length] in Hn |- *.
    rewrite Nat2Z.inj_succ, <- Z.add_1_r, inject_Z_plus in Hn |- *.
    change (inject_Z 1) with 1 in Hn |- *.
    assert (H0 : 0 <= inject_Z (Z.of_nat (List.length pairs))).
    { change 0 with (inject_Z 0). rewrite <- Zle_Qle. lia. }
    cbn [Metrics.log_loss_loop].
    destruct (log_loss_step_ok acc y p (Hb y p (or_introl eq_refl)))
      as (v1 & -> & H1); [lra |].
    cbn [bind].
    destruct (IH v1) as (v & -> & H2).
    + intros y' p' Hin. exact (Hb y' p' (or_intror Hin)).
    + lra.
    + lra.
    + exists v. split; [reflexivity | lra].
Qed.

End LogLossFacts.


Lemma log_approx_bounded : forall q, Metrics.EPS <= q <= 1 - Metrics.EPS ->
  exists l, log_approx (PF q) = Ok (PF l) /\ -35 <= l <= 0.
Proof.
  intros q Hq. exists (q - 1).
  split; [reflexivity | unfold Metrics.EPS in Hq; lra].
Qed.


(** [_accuracy_at_threshold] returns None exactly on an empty [y_true];
    otherwise it returns a fraction between 0 and 1. *)
Theorem accuracy_at_threshold_range : forall y_true y_score thr,
  (Metrics._accuracy_at_threshold y_true y_score thr = None <-> y_true = []) /\
  (forall v, Metrics._accuracy_at_threshold y_true y_score thr = Some v ->
     0 <= v <= 1).
Proof.
  intros y_true y_score thr. unfold Metrics._accuracy_at_threshold.
  destruct y_true as [| y0 ys]; cbn [Datatypes.length Nat.eqb].
  - split; [split; reflexivity | intros v H; discriminate H].
  - split; [split; intros H; discriminate H |].
    intros v H. injection H as <-.
    match goal with |- context [filter ?f ?l] =>
      pose proof (filter_length_le f l) as Hf;
      pose proof (length_combine (y0 :: ys) y_score) as Hc;
      set (c := Datatypes.length (filter f l)) in *
    end.
    clearbody c. cbn [Datatypes.length combine] in Hc.
    apply (ratio_bound (Z.of_nat c) (Z.of_nat (S (Datatypes.length ys)))); lia.
Qed.

Lemma filter_nil_iff : forall {A} (f : A -> bool) l,
  filter f l = [] <-> forall x, In x l -> f x = false.
Proof.
  intros A f l. split.
  - intros H x Hx. destruct (f x) eqn:E; [| reflexivity].
    assert (Hin : In x (filter f l)) by (apply filter_In; split; assumption).
    rewrite H in Hin. destruct Hin.
  - intros H. destruct (filter f l) as [| x xs] eqn:E; [reflexivity |].
    assert (Hin : In x (filter f l)) by (rewrite E; left; reflexivity).
    apply filter_In in Hin. destruct Hin as (Hx & Hf).
    rewrite (H x Hx) in Hf. discriminate Hf.
Qed.

Section ToLists.

Variable float_of_str : string -> option pyfloat.
Variable int_of_str : string -> option Z.

Definition label_ok (ab : pyval * pyval) : bool := res_ok (Gate.py_int int_of_str (fst ab)).

Definition score_lost (ab : pyval * pyval) : bool :=
  label_ok ab && negb (res_ok (Metrics.py_float float_of_str (snd ab))).

Lemma to_lists_spec : forall y_true y_score,
  let r := Metrics._to_lists float_of_str int_of_str y_true y_score in
  let pairs := combine y_true y_score in
  fst r = flat_map (fun '(a, _) =>
            match Gate.py_int int_of_str a with Ok i => [i] | Raise _ => [] end) pairs /\
  snd r = flat_map (fun '(a, b) =>
            match Gate.py_int int_of_str a with
            | Ok _ => match Metrics.py_float float_of_str b with
                      | Ok f => [f] | Raise _ => [] end
            | Raise _ => []
            end) pairs /\
  List.length (fst r) = (List.length (snd r) + List.length (filter score_lost pairs))%nat.
Proof.
  induction y_true as [| a y_true IH]; intros y_score r pairs; subst r pairs.
  - split; [| split]; reflexivity.
  - destruct y_score as [| b y_score]; [split; [| split]; reflexivity |].
    cbn [Metrics._to_lists combine flat_map filter].
    destruct (IH y_score) as (H1 & H2 & H3). cbv zeta in H1, H2, H3.
    destruct (Metrics._to_lists float_of_str int_of_str y_true y_score) as [yt ys].
    cbn [fst snd] in H1, H2, H3.
    unfold score_lost at 1, label_ok. cbn [fst snd].
    destruct (Gate.py_int int_of_str a); cbn [res_ok andb negb];
      [destruct (Metrics.py_float float_of_str b) |];
      cbn [fst snd app res_ok negb Datatypes.length];
      (split; [| split]); try congruence; lia.
Qed.

End ToLists.

(** [_to_lists] keeps the label of every pair whose label converts with
    [int()], and the score only when [float()] also succeeds on it: the two
    lists have the same length (stay aligned) exactly when no pair has a
    convertible label and an unconvertible score, and [y_score] loses one
    entry per such pair. *)
Theorem to_lists_alignment : forall float_of_str int_of_str y_true y_score,
  let r := Metrics._to_lists float_of_str int_of_str y_true y_score in
  let pairs := combine y_true y_score in
  fst r = flat_map (fun '(a, _) =>
            match Gate.py_int int_of_str a with Ok i => [i] | Raise _ => [] end) pairs /\
  List.length (fst r) =
    (List.length (snd r) + List.length (filter (score_lost float_of_str int_of_str) pairs))%nat /\
  (List.length (fst r) = List.length (snd r) <->
   forall a b, In (a, b) pairs ->
     res_ok (Gate.py_int int_of_str a) = true ->
     res_ok (Metrics.py_float float_of_str b) = true).
Proof.
  intros float_of_str int_of_str y_true y_score r pairs.
  destruct (to_lists_spec float_of_str int_of_str y_true y_score) as (H1 & _ & H3).
  cbv zeta in H1, H3. subst r pairs.
  split; [exact H1 |]. split; [exact H3 |].
  rewrite H3. split.
  - intros Hl a b Hin Ha.
    assert (Hf : filter (score_lost float_of_str int_of_str) (combine y_true y_score) = [])
      by (apply length_zero_iff_nil; lia).
    rewrite filter_nil_iff in Hf. specialize (Hf (a, b) Hin).
    unfold score_lost, label_ok in Hf. cbn [fst snd] in Hf. rewrite Ha in Hf.
    destruct (res_ok (Metrics.py_float float_of_str b)); [reflexivity | discriminate Hf].
  - intros H.
    assert (Hf : filter (score_lost float_of_str int_of_str) (combine y_true y_score) = []).
    { apply filter_nil_iff. intros [a b] Hin. unfold score_lost, label_ok. cbn [fst snd].
      destruct (res_ok (Gate.py_int int_of_str a)) eqn:Ha; [| reflexivity].
      rewrite (H a b Hin Ha). reflexivity. }
    rewrite Hf. cbn [Datatypes.length]. lia.
Qed.

(* ------------------------------------------------------------------ *)
(** * The validator's final status *)

Lemma pass_truthy : forall s, str_lower s = "pass" -> truthy (PyStr s) = true.
Proof. intros [| c s] H; [discriminate H | reflexivity]. Qed.

Lemma lower_is_pass_truthy : forall v,
  Validator.lower_is_pass v = true -> truthy v = true.
Proof.
  intros [| | | | s | |] H; try discriminate H.
  apply pass_truthy, String.eqb_eq, H.
Qed.

Lemma lower_is_pass_spec : forall v,
  Validator.lower_is_pass v = true <-> exists s, str_lower s = "pass" /\ v = PyStr s.
Proof.
  intros v. split.
  - intros H. destruct v as [| | | | s | |]; try discriminate H.
    exists s. split; [apply String.eqb_eq, H | reflexivity].
  - intros (s & Hs & ->). cbn [Validator.lower_is_pass]. rewrite Hs. reflexivity.
Qed.

Lemma lower_is_pass_or : forall sv gv,
  Validator.lower_is_pass (Validator.py_or (Validator.py_or sv gv) (PyStr "fail")) = true <->
  exists s, str_lower s = "pass" /\
    (sv = PyStr s \/ (truthy sv = false /\ gv = PyStr s)).
Proof.
  intros sv gv.
  assert (Hf : forall y, Validator.lower_is_pass (Validator.py_or y (PyStr "fail")) =
                         Validator.lower_is_pass y).
  { intros y. unfold Validator.py_or. destruct (truthy y) eqn:T; [reflexivity |].
    destruct (Validator.lower_is_pass y) eqn:L; [| reflexivity].
    apply lower_is_pass_truthy in L. congruence. }
  rewrite Hf. unfold Validator.py_or. rewrite lower_is_pass_spec.
  destruct (truthy sv) eqn:Ts; split.
  - intros (s & Hs & ->). exists s. split; [exact Hs | left; reflexivity].
  - intros (s & Hs & [-> | (Hc & _)]); [exists s; split; [exact Hs | reflexivity] | congruence].
  - intros (s & Hs & ->). exists s. split; [exact Hs | right; split; reflexivity].
  - intros (s & Hs & [-> | (_ & ->)]); [| exists s; split; [exact Hs | reflexivity]].
    rewrite (pass_truthy s Hs) in Ts. discriminate Ts.
Qed.

Lemma final_status_gate_dict : forall m,
  Validator.final_status (Validator._gate_result (Parsed (PyDict m))) =
  if Validator.lower_is_pass
       (Validator.py_or
          (Validator.py_or (match assoc "status" m with Some v => v | None => PyNone end)
                           (match assoc "gate_status" m with Some v => v | None => PyNone end))
          (PyStr "fail"))
  then PASS else FAIL.
Proof.
  intros m. unfold Validator._gate_result, Validator.gate_result_try.
  cbn [py_get].
  destruct (assoc "status" m), (assoc "gate_status" m),
           (assoc "policy" m), (assoc "reasons" m); reflexivity.
Qed.

(** The validator's final status is PASS exactly when the gate result file
    was read, parsed to a JSON object, and its [status], or, when that is
    missing or falsy, its [gate_status], is a string equal to "pass" up to
    case; a missing or unparseable file, or any other content, gives FAIL. *)
Theorem validator_pass_iff : forall a,
  Validator.final_status (Validator._gate_result a) = PASS <->
  exists m s, a = Parsed (PyDict m) /\ str_lower s = "pass" /\
    let get k := match assoc k m with Some v => v | None => PyNone end in
    (get "status" = PyStr s \/
     (truthy (get "status") = false /\ get "gate_status" = PyStr s)).
Proof.
  intros a. split.
  - intros H. destruct a as [| | raw]; [discriminate H | discriminate H |].
    destruct raw as [| | | | | | m];
      try (vm_compute in H; discriminate H).
    rewrite final_status_gate_dict in H.
    destruct (Validator.lower_is_pass _) eqn:Hp; [| discriminate H].
    apply lower_is_pass_or in Hp. destruct Hp as (s & Hs & Hc).
    exists m, s. split; [reflexivity |]. split; [exact Hs | exact Hc].
  - intros (m & s & -> & Hs & Hc). rewrite final_status_gate_dict.
    replace (Validator.lower_is_pass _) with true; [reflexivity |].
    symmetry. apply lower_is_pass_or. exists s. split; [exact Hs | exact Hc].
Qed.

(** Run end to end, the validator's exit code equals the gate's process exit
    code: 0 when the gate completes with PASS, and 1 when it completes with
    FAIL or raises (the validator then reads the fail-closed object it
    wrote). *)
Theorem validator_exit_matches_gate :
  forall ln ks_2samp float_of_str int_of_str w msg,
  let g := main ln ks_2samp float_of_str int_of_str w in
  Validator.validator_exit (Validator.run_policy_gate g msg) = process_exit g.
Proof.
  intros ln ks_2samp float_of_str int_of_str w msg. cbv zeta.
  destruct (main ln ks_2samp float_of_str int_of_str w) as [[code r]|e] eqn:E;
    [| reflexivity].
  destruct (main_shape _ _ _ _ w code r E)
    as (pol & obs & c1 & c2 & c3 & c4 & c5 & c6 & c7 & n7 & Hc).
  repeat match type of Hc with _ /\ _ => destruct Hc as [_ Hc] end.
  cbn [process_exit]. rewrite Hc.
  unfold Validator.validator_exit, Validator.run_policy_gate, Validator.gate_result_json.
  destruct (status r); reflexivity.
Qed.

Lemma pf_sum_zero_acc : forall xs acc,
  (forall x, In x xs -> exists q, x = PF q /\ q == 0) ->
  exists q, fold_left pf_add xs (PF acc) = PF q /\ q == acc.
Proof.
  induction xs as [| x xs IH]; intros acc Hx.
  - exists acc. split; [reflexivity | apply Qeq_refl].
  - destruct (Hx x (or_introl eq_refl)) as (q & -> & Hq).
    cbn [fold_left pf_add].
    destruct (IH (acc + q)) as (v & -> & Hv);
      [intros y Hy; exact (Hx y (or_intror Hy)) |].
    exists v. split; [reflexivity |]. rewrite Hv, Hq. ring.
Qed.

Lemma in_combine_same : forall {A} (l : list A) a e,
  In (a, e) (combine l l) -> a = e.
Proof.
  intros A l. induction l as [| x l IH]; intros a e H; [destruct H |].
  destruct H as [H | H]; [injection H as <- <-; reflexivity | exact (IH a e H)].
Qed.

(** With a logarithm that has the sign of [np.log], [_psi] of a sample
    against itself is 0: both histograms are the same, so every bin's term
    [(a - a) * log(a / a)] vanishes. *)
Theorem psi_self_zero : forall ln sample bins,
  log_sign ln ->
  exists q, _psi ln sample sample bins = PF q /\ q == 0.
Proof.
  intros ln sample bins Hl. unfold _psi.
  destruct (finite_part sample) as [| x xs];
    [exists 0; split; [reflexivity | apply Qeq_refl] |].
  assert (H : exists q, psi_raw ln (x :: xs) (x :: xs) bins = PF q /\ q == 0).
  { unfold psi_raw, pf_sum. apply pf_sum_zero_acc.
    intros t Ht. apply in_map_iff in Ht.
    destruct Ht as ([a e] & <- & Hin).
    assert (Ha : 0 < a) by (eapply ratios_pos, in_combine_l, Hin).
    assert (He : 0 < e) by (eapply ratios_pos, in_combine_r, Hin).
    assert (Hd : 0 < a / e) by (apply Qlt_shift_div_l; [exact He | lra]).
    destruct (Hl (a / e) Hd) as (l & -> & _).
    cbn [pf_scale]. exists ((a - e) * l). split; [reflexivity |].
    apply in_combine_same in Hin. rewrite Hin. ring. }
  destruct H as (q & Hq & Hz). rewrite Hq. cbn [pf_isfinite].
  exists q. split; [reflexivity | exact Hz].
Qed.

Lemma psi_self_zero_witness :
  log_sign ln_approx /\
  exists q, _psi ln_approx [PF 1; PF 2; PNaN; PF 5] [PF 1; PF 2; PNaN; PF 5] 10 = PF q /\ q == 0.
Proof.
  split; [exact ln_approx_sign |].
  apply (psi_self_zero ln_approx [PF 1; PF 2; PNaN; PF 5] 10).
  exact ln_approx_sign.
Defined.
